(** * Berlin POI finder: the geospatial filtering pipeline of [src/berlin_poi.py]

    A shallow embedding of the five functions of the program
    ([get_coordinates], [haversine_distance], [find_points_of_interest],
    [create_map], [main]) and the properties its specification states
    about them.

    - Python floats are IEEE-754 binary64 numbers: [spec_float] with the
      operations of [SpecFloat] at precision 53 and maximal exponent 1024.
    - Code that may raise returns a [result]; code that talks to the
      outside world (console, geocoder, Overpass, folium) is a computation
      in [IO], which records the calls it makes as a trace of [event]s.
    - What the program imports and does not define (the [math] module, the
      float power operator, [round], the text of a float, the two network
      collaborators) is taken as a parameter: [Platform] and [World]. *)

From stdpp Require Import base strings list gmap pretty.
From Stdlib Require Import ZArith Lia.
From Stdlib Require Import Floats.SpecFloat.

Local Open Scope Z_scope.

(** ** Binary64 floats *)

Module Float64.

Definition float : Type := spec_float.

Definition prec : Z := 53.
Definition emax : Z := 1024.

Definition add : float -> float -> float := SFadd prec emax.
Definition sub : float -> float -> float := SFsub prec emax.
Definition mul : float -> float -> float := SFmul prec emax.
Definition div : float -> float -> float := SFdiv prec emax.
Definition sqrt : float -> float := SFsqrt prec emax.
Definition opp : float -> float := SFopp.
Definition abs : float -> float := SFabs.
Definition leb : float -> float -> bool := SFleb.
Definition ltb : float -> float -> bool := SFltb.

(** An integer used where a float is expected ([2 * x], [1 - a],
    [R * c]) is converted first; the conversion rounds to nearest even
    and is exact up to 2^53. *)
Definition of_Z (z : Z) : float := binary_normalize prec emax z 0 false.

Definition zero : float := S754_zero false.
Definition nan : float := S754_nan.

Definition is_finite (x : float) : bool :=
  match x with
  | S754_zero _ | S754_finite _ _ _ => true
  | S754_infinity _ | S754_nan => false
  end.

Definition is_nan (x : float) : bool :=
  match x with S754_nan => true | _ => false end.

Definition is_infinite (x : float) : bool :=
  match x with S754_infinity _ => true | _ => false end.

Definition sign (x : float) : bool :=
  match x with
  | S754_zero s | S754_infinity s | S754_finite s _ _ => s
  | S754_nan => false
  end.

Definition copysign (x y : float) : float :=
  if sign y then opp (abs x) else abs x.

(** A well-formed binary64 number: the mantissa has at most 53 bits and
    the exponent is the canonical one. *)
Definition valid (x : float) : bool := valid_binary prec emax x.

(** Exact comparison of a float with an integer, the way Python compares
    an [int] with a [float]: by value, without rounding the integer. *)
Definition compare_int (x : float) (z : Z) : option comparison :=
  match x with
  | S754_nan => None
  | S754_infinity s => Some (if s then Lt else Gt)
  | S754_zero _ => Some (0 ?= z)
  | S754_finite s m e =>
      Some (if 0 <=? e
            then cond_Zopp s (Z.pos m * 2 ^ e) ?= z
            else cond_Zopp s (Z.pos m) ?= z * 2 ^ (- e))
  end.

(** A decimal literal: [decimal 5252 2] is the float that the literal
    52.52 denotes, the float nearest to 5252 / 10^2. *)
Definition decimal (units : Z) (digits : Z) : float :=
  div (of_Z units) (of_Z (10 ^ digits)).

(** [in_range lo hi x]: x is a well-formed number with lo <= x <= hi. *)
Definition in_range (lo hi : Z) (x : float) : bool :=
  valid x && leb (of_Z lo) x && leb x (of_Z hi).

End Float64.

Export Float64.

(** A Python number: the radius is an [int] in [main] and may be a
    [float] for other callers. *)
Inductive number :=
  | PyInt (z : Z)
  | PyFloat (x : float).

Definition float_compare (d : float) (r : number) : option comparison :=
  match r with
  | PyInt z => compare_int d z
  | PyFloat x => SFcompare d x
  end.

(** [d <= r], [d == r] and [d > r] for a float [d] and a number [r]. *)
Definition float_le (d : float) (r : number) : bool :=
  match float_compare d r with
  | Some (Lt | Eq) => true
  | _ => false
  end.

Definition float_eq (d : float) (r : number) : bool :=
  match float_compare d r with
  | Some Eq => true
  | _ => false
  end.

Definition float_gt (d : float) (r : number) : bool :=
  match float_compare d r with
  | Some Gt => true
  | _ => false
  end.

(** ** Exceptions *)

(** An instance of [Exception]: its class and the text of [str(e)].
    The exceptions outside [Exception] ([KeyboardInterrupt],
    [SystemExit]), which an [except Exception] clause lets through, are
    not modelled: every statement about an [exn] is about an error that
    such a clause catches. *)
Inductive exn := Exn (cls : string) (msg : string).

Definition exn_str (e : exn) : string := let 'Exn _ msg := e in msg.

Definition ValueError (msg : string) : exn := Exn "ValueError" msg.
Definition KeyError (msg : string) : exn := Exn "KeyError" msg.

Inductive result (A : Type) :=
  | Ok (a : A)
  | Raise (e : exn).
Arguments Ok {A} a.
Arguments Raise {A} e.

#[export] Instance result_ret : MRet result := fun A a => Ok a.
#[export] Instance result_bind : MBind result := fun A B f m =>
  match m with
  | Ok a => f a
  | Raise e => Raise e
  end.
#[export] Instance result_fmap : FMap result := fun A B f m =>
  match m with
  | Ok a => Ok (f a)
  | Raise e => Raise e
  end.

(** ** The platform: what the program imports from Python

    The functions of [math], the power operator and [round], on floats.
    A function of [math] and a power may raise ([math.sqrt] on a negative
    number, [math.sin] on an infinity, a power that overflows), so they
    return a [result]. *)

Record Platform := {
  math_radians : float -> result float;
  math_sin : float -> result float;
  math_cos : float -> result float;
  math_sqrt : float -> result float;
  math_atan2 : float -> float -> result float;
  (** [x ** n] for a float [x] and an [int] [n] *)
  float_pow : float -> Z -> result float;
  (** [round(x, ndigits)] *)
  round_ndigits : float -> Z -> float;
  (** the text of a float in an f-string *)
  float_str : float -> string
}.

(** ** Distance Calculator *)

Section Distance.
Context (P : Platform).

Definition haversine_distance (lat1 lon1 lat2 lon2 : float) : result float :=
  let R := 6371000 in
  lat1_rad ← math_radians P lat1;
  lon1_rad ← math_radians P lon1;
  lat2_rad ← math_radians P lat2;
  lon2_rad ← math_radians P lon2;
  let dlat := sub lat2_rad lat1_rad in
  let dlon := sub lon2_rad lon1_rad in
  sin_dlat ← math_sin P (div dlat (of_Z 2));
  sq_dlat ← float_pow P sin_dlat 2;
  cos_lat1 ← math_cos P lat1_rad;
  cos_lat2 ← math_cos P lat2_rad;
  sin_dlon ← math_sin P (div dlon (of_Z 2));
  sq_dlon ← float_pow P sin_dlon 2;
  let a := add sq_dlat (mul (mul cos_lat1 cos_lat2) sq_dlon) in
  sqrt_a ← math_sqrt P a;
  sqrt_1a ← math_sqrt P (sub (of_Z 1) a);
  atan ← math_atan2 P sqrt_a sqrt_1a;
  let c := mul (of_Z 2) atan in
  let distance := mul (of_Z R) c in
  Ok distance.

End Distance.

(** ** A reference platform

    A small implementation of the platform in binary64 arithmetic: series
    for the trigonometric functions, the correctly rounded square root,
    powers by repeated multiplication.  It raises where Python's [math]
    raises (a domain error for the sine or cosine of an infinity and for
    the square root of a negative number, an overflow for a power).  It
    is not CPython's [math]: its values can differ from CPython's in the
    last digits, and a rounding error can push the haversine term above
    1, and so into the domain error, on other pairs of points.  The
    theorems below hold for every platform; this one runs the model on
    concrete inputs. *)

Module Reference.

Definition domain_error : exn := ValueError "math domain error".
Definition range_error : exn :=
  Exn "OverflowError" "(34, 'Numerical result out of range')".

(** pi and pi/180, rounded to nearest *)
Definition pi : float := S754_finite false 7074237752028440 (-51).
Definition degToRad : float := S754_finite false 5030569068109113 (-58).

(** [acc + t1 + t2 + ...] where [t0 = term] and
    [t(i+1) = - t(i) * x2 / ((k+1) * (k+2))], for [fuel] terms. *)
Fixpoint alternating_series (fuel : nat) (k : Z) (term x2 acc : float) : float :=
  match fuel with
  | O => acc
  | S fuel' =>
      let term' := div (mul (opp term) x2) (of_Z ((k + 1) * (k + 2))) in
      alternating_series fuel' (k + 2) term' x2 (add acc term')
  end.

Definition sin_series (x : float) : float :=
  alternating_series 16 1 x (mul x x) x.

Definition cos_series (x : float) : float :=
  alternating_series 16 0 (of_Z 1) (mul x x) (of_Z 1).

Definition ref_radians (x : float) : result float := Ok (mul x degToRad).

(** The sine is computed on the magnitude and given the sign of the
    argument. *)
Definition ref_sin (x : float) : result float :=
  match x with
  | S754_nan => Ok nan
  | S754_infinity _ => Raise domain_error
  | S754_zero _ => Ok x
  | S754_finite s m e =>
      let r := sin_series (S754_finite false m e) in
      Ok (if s then opp r else r)
  end.

(** The cosine, kept inside [-1, 1]. *)
Definition ref_cos (x : float) : result float :=
  match x with
  | S754_nan => Ok nan
  | S754_infinity _ => Raise domain_error
  | _ =>
      let c := cos_series x in
      if in_range (-1) 1 c then Ok c
      else if ltb c zero then Ok (of_Z (-1)) else Ok (of_Z 1)
  end.

Definition ref_sqrt (x : float) : result float :=
  match x with
  | S754_infinity true | S754_finite true _ _ => Raise domain_error
  | _ => Ok (sqrt x)
  end.

(** [t - t^3/3 + t^5/5 - ...], for [fuel] terms after the first. *)
Fixpoint atan_series (fuel : nat) (k : Z) (power t2 acc : float) : float :=
  match fuel with
  | O => acc
  | S fuel' =>
      let power' := mul (opp power) t2 in
      atan_series fuel' (k + 2) power' t2 (add acc (div power' (of_Z (k + 2))))
  end.

(** atan(t) = 2 atan(t / (1 + sqrt(1 + t^2))), used twice to bring an
    argument of [0, 1] below 1/4. *)
Definition halve_angle (t : float) : float :=
  div t (add (of_Z 1) (sqrt (add (of_Z 1) (mul t t)))).

Definition atan_unit (t : float) : float :=
  let u := halve_angle (halve_angle t) in
  mul (of_Z 4) (atan_series 16 1 u (mul u u) u).

(** The arc tangent of a non-negative argument. *)
Definition atan_pos (t : float) : float :=
  match t with
  | S754_infinity _ => div pi (of_Z 2)
  | _ =>
      if leb t (of_Z 1) then atan_unit t
      else sub (div pi (of_Z 2)) (atan_unit (div (of_Z 1) t))
  end.

Definition ref_atan2 (y x : float) : result float :=
  match y, x with
  | S754_nan, _ | _, S754_nan => Ok nan
  | _, _ =>
      let ay := abs y in
      let r :=
        match x with
        | S754_zero s =>
            if is_finite y && negb (ltb zero ay)
            then (if s then pi else zero)
            else div pi (of_Z 2)
        | S754_infinity s =>
            if is_infinite y
            then (if s then mul (of_Z 3) (div pi (of_Z 4)) else div pi (of_Z 4))
            else (if s then pi else zero)
        | _ =>
            if sign x then sub pi (atan_pos (div ay (abs x)))
            else atan_pos (div ay x)
        end in
      Ok (copysign r y)
  end.

(** [x ** n] by repeated multiplication; an overflow is an error. *)
Definition ref_pow (x : float) (n : Z) : result float :=
  match n with
  | 0 => Ok (of_Z 1)
  | Z.pos p =>
      let r := Pos.iter (mul x) (of_Z 1) p in
      if is_finite x && is_infinite r then Raise range_error else Ok r
  | Z.neg p =>
      match x with
      | S754_zero _ =>
          Raise (Exn "ZeroDivisionError" "0.0 cannot be raised to a negative power")
      | _ =>
          let r := div (of_Z 1) (Pos.iter (mul x) (of_Z 1) p) in
          if is_finite x && is_infinite r then Raise range_error else Ok r
      end
  end.

(** The nearest integer, ties to even, of a float below 2^52 in
    magnitude (larger floats are integers already). *)
Definition rint (y : float) : float :=
  let big := of_Z (2 ^ 52) in
  if ltb (abs y) big then copysign (sub (add (abs y) big) big) y else y.

Definition ref_round (x : float) (ndigits : Z) : float :=
  if is_finite x then
    if 0 <=? ndigits
    then let s := of_Z (10 ^ ndigits) in div (rint (mul x s)) s
    else let s := of_Z (10 ^ (- ndigits)) in mul (rint (div x s)) s
  else x.

(** Six-digit fractions without their trailing zeros. *)
Fixpoint fraction_digits (n : nat) (f : Z) : string :=
  match n with
  | O => EmptyString
  | S n' =>
      if f =? 0 then EmptyString
      else pretty (f / 10 ^ Z.of_nat n') +:+ fraction_digits n' (f mod 10 ^ Z.of_nat n')
  end.

(** The decimal text of a float, rounded to six decimals. *)
Definition ref_float_str (x : float) : string :=
  match x with
  | S754_nan => "nan"
  | S754_infinity s => if s then "-inf" else "inf"
  | S754_zero s => if s then "-0.0" else "0.0"
  | S754_finite s m e =>
      let micro :=
        if 0 <=? e then Z.pos m * 2 ^ e * 1000000
        else (Z.pos m * 2000000 + 2 ^ (- e)) / 2 ^ (- e + 1) in
      let whole := micro / 1000000 in
      let frac := micro mod 1000000 in
      (if s then "-" else EmptyString) +:+ pretty whole +:+ "." +:+
      (if frac =? 0 then "0" else fraction_digits 6 frac)
  end.

Definition platform : Platform := {|
  math_radians := ref_radians;
  math_sin := ref_sin;
  math_cos := ref_cos;
  math_sqrt := ref_sqrt;
  math_atan2 := ref_atan2;
  float_pow := ref_pow;
  round_ndigits := ref_round;
  float_str := ref_float_str
|}.

End Reference.

(** ** Data model *)

(** A match returned by the geocoder (geopy's [Location]). *)
Record Location := {
  loc_latitude : float;
  loc_longitude : float
}.

(** A node returned by the map-data service (overpy's [Node]): its tags
    and its coordinates, as [float(node.lat)] and [float(node.lon)] give
    them. *)
Record Node := {
  node_tags : gmap string string;
  node_lat : float;
  node_lon : float
}.

(** The dictionary [find_points_of_interest] builds for a point of
    interest, with its five keys. *)
Record POI := {
  name : string;
  type : string;
  latitude : float;
  longitude : float;
  distance_m : float
}.

(** What [create_map] hands to folium. *)
Record Icon := {
  icon_color : string;
  icon_name : string
}.

Inductive element :=
  | Marker (location : float * float) (popup : string) (icon : Icon)
  | Circle (location : float * float) (radius : number) (color : string)
      (fill : bool) (fill_opacity : float).

Record FoliumMap := {
  map_location : float * float;
  zoom_start : Z;
  children : list element
}.

Definition add_to (child : element) (m : FoliumMap) : FoliumMap :=
  {| map_location := map_location m;
     zoom_start := zoom_start m;
     children := children m ++ [child] |}.

(** ** Effects *)

(** The calls the program makes to the outside world. *)
Inductive event :=
  | Input (prompt : string)
  | Print (text : string)
  | GeocodeCall (query : string)
  | OverpassCall (query : string)
  | SaveMap (path : string) (m : FoliumMap).

(** The outside world of one run: the line typed at the prompt and the
    answers of the two collaborators, which may raise an [exn].  A run
    is one in which [input()] returns a line, and in which printing and
    saving the map succeed: a closed standard input, on which [input()]
    raises [EOFError] outside every [try], and a failing [print] or
    [save] are not modelled. *)
Record World := {
  stdin_line : string;
  geocode : string -> result (option Location);
  overpass_query : string -> result (list Node)
}.

(** A computation: the events it emitted, in order, and how it ended. *)
Record IO (A : Type) := Run {
  trace : list event;
  outcome : result A
}.
Arguments Run {A} trace outcome.
Arguments trace {A} _.
Arguments outcome {A} _.

#[export] Instance io_ret : MRet IO := fun A a => Run [] (Ok a).
#[export] Instance io_bind : MBind IO := fun A B f m =>
  match outcome m with
  | Ok a => Run (trace m ++ trace (f a)) (outcome (f a))
  | Raise e => Run (trace m) (Raise e)
  end.

Definition emit (ev : event) : IO unit := Run [ev] (Ok tt).
Definition print (text : string) : IO unit := emit (Print text).
Definition raise {A} (e : exn) : IO A := Run [] (Raise e).
Definition lift {A} (r : result A) : IO A := Run [] r.

(** [try: body except Exception as e: handler e].  Every [exn] is an
    instance of [Exception], so the handler runs on each. *)
Definition try_except {A} (body : IO A) (handler : exn -> IO A) : IO A :=
  match outcome body with
  | Ok _ => body
  | Raise e => Run (trace body ++ trace (handler e)) (outcome (handler e))
  end.

(** [for x in xs: body x] *)
Fixpoint for_each {A} (xs : list A) (body : A -> IO unit) : IO unit :=
  match xs with
  | [] => mret tt
  | x :: xs' => body x;; for_each xs' body
  end.

(** ** Dictionaries with string keys *)

Definition contains (d : gmap string string) (key : string) : bool :=
  bool_decide (is_Some (d !! key)).

Definition get (d : gmap string string) (key dflt : string) : string :=
  default dflt (d !! key).

Definition subscript (d : gmap string string) (key : string) : result string :=
  match d !! key with
  | Some v => Ok v
  | None => Raise (KeyError key)
  end.

(** ** The program *)

Definition newline : string := String (Ascii.ascii_of_nat 10) EmptyString.
Definition dquote : string := String (Ascii.ascii_of_nat 34) EmptyString.

Section Program.
Context (P : Platform) (W : World).

Definition number_str (r : number) : string :=
  match r with
  | PyInt z => pretty z
  | PyFloat x => float_str P x
  end.

Definition input (prompt : string) : IO string :=
  Run [Input prompt] (Ok (stdin_line W)).

Definition geolocator_geocode (query : string) : IO (option Location) :=
  Run [GeocodeCall query] (geocode W query).

Definition overpass_dot_query (query : string) : IO (list Node) :=
  Run [OverpassCall query] (overpass_query W query).

(** *** Coordinate Resolver *)

Definition get_coordinates (address : string)
  : IO (option float * option float) :=
  try_except
    (location ← geolocator_geocode (address +:+ ", Berlin, Germany");
     match location with
     | Some l => mret (Some (loc_latitude l), Some (loc_longitude l))
     | None => raise (ValueError "Address not found.")
     end)
    (fun e =>
       print ("Error geocoding address: " +:+ exn_str e);;
       mret (None, None)).

(** *** POI Query Service *)

Definition overpass_ql (radius : number) (lat lon : float) : string :=
  newline +:+
  "    [out:json];" +:+ newline +:+
  "    node(around:" +:+ number_str radius +:+ "," +:+ float_str P lat +:+
    "," +:+ float_str P lon +:+ ")" +:+ newline +:+
  "    [" +:+ dquote +:+ "amenity" +:+ dquote +:+ "];" +:+ newline +:+
  "    out body;" +:+ newline +:+
  "    ".

(** The body of the loop over [result.nodes]: the list [pois] after
    the node has been looked at. *)
Definition visit (lat lon : float) (radius : number)
    (pois : list POI) (node : Node) : result (list POI) :=
  if contains (node_tags node) "amenity" then
    let poi_lat := node_lat node in
    let poi_lon := node_lon node in
    distance ← haversine_distance P lat lon poi_lat poi_lon;
    if float_le distance radius then
      let poi_name := get (node_tags node) "name" "Unnamed POI" in
      if bool_decide (poi_name ≠ "Unnamed POI") then
        poi_type ← subscript (node_tags node) "amenity";
        Ok (pois ++ [ {| name := poi_name;
                         type := poi_type;
                         latitude := poi_lat;
                         longitude := poi_lon;
                         distance_m := round_ndigits P distance 2 |} ])
      else Ok pois
    else Ok pois
  else Ok pois.

Fixpoint for_nodes (lat lon : float) (radius : number)
    (nodes : list Node) (pois : list POI) : result (list POI) :=
  match nodes with
  | [] => Ok pois
  | node :: rest =>
      pois' ← visit lat lon radius pois node;
      for_nodes lat lon radius rest pois'
  end.

Definition find_points_of_interest (lat lon : float) (radius : number)
  : IO (list POI) :=
  let query := overpass_ql radius lat lon in
  try_except
    (nodes ← overpass_dot_query query;
     lift (for_nodes lat lon radius nodes []))
    (fun e =>
       print ("Error querying Overpass API: " +:+ exn_str e);;
       mret []).

(** *** Presentation Builder *)

Definition poi_marker (poi : POI) : element :=
  Marker (latitude poi, longitude poi)
    (name poi +:+ " (" +:+ type poi +:+ ")" +:+ newline +:+
     float_str P (distance_m poi) +:+ "m")
    {| icon_color := "blue"; icon_name := "star" |}.

Definition create_map (lat lon : float) (pois : list POI) (address : string)
  : IO unit :=
  let m := {| map_location := (lat, lon); zoom_start := 17; children := [] |} in
  let m := add_to (Marker (lat, lon) ("Starting Point: " +:+ address)
                     {| icon_color := "red"; icon_name := "info-sign" |}) m in
  let m := foldl (fun m poi => add_to (poi_marker poi) m) m pois in
  let m := add_to (Circle (lat, lon) (PyInt 250) "green" true (decimal 1 1)) m in
  emit (SaveMap "poi_map.html" m);;
  print "Map saved as 'poi_map.html'. Open it in a web browser to view.".

(** *** Orchestrator *)

Definition poi_line (poi : POI) : string :=
  "- " +:+ name poi +:+ " (" +:+ type poi +:+ ") at (" +:+
  float_str P (latitude poi) +:+ ", " +:+ float_str P (longitude poi) +:+ "), " +:+
  float_str P (distance_m poi) +:+ " meters away".

Definition main : IO unit :=
  address ← input "Enter an address in Berlin: ";
  '(lat, lon) ← get_coordinates address;
  match lat, lon with
  | Some lat, Some lon =>
      print ("Coordinates for " +:+ address +:+ ": (" +:+
             float_str P lat +:+ ", " +:+ float_str P lon +:+ ")");;
      pois ← find_points_of_interest lat lon (PyInt 250);
      match pois with
      | _ :: _ =>
          print (newline +:+ "Found " +:+ pretty (length pois) +:+
                 " named points of interest within 250 meters:");;
          for_each pois (fun poi => print (poi_line poi));;
          create_map lat lon pois address
      | [] =>
          print "No named points of interest found within 250 meters."
      end
  | _, _ =>
      print "Could not find coordinates for the address."
  end.

End Program.

(** ** Vocabulary of the specification *)

(** A valid GeoPoint: a latitude in [-90, 90] and a longitude in
    [-180, 180], both well-formed binary64 numbers. *)
Definition valid_geopoint (lat lon : float) : bool :=
  in_range (-90) 90 lat && in_range (-180) 180 lon.

(** The distance the POI Query Service computes for a candidate. *)
Definition candidate_distance (P : Platform) (lat lon : float) (node : Node)
  : result float :=
  haversine_distance P lat lon (node_lat node) (node_lon node).

(** The point of interest built for a named candidate at distance [d]. *)
Definition poi_at (P : Platform) (node : Node) (category nm : string) (d : float)
  : POI :=
  {| name := nm;
     type := category;
     latitude := node_lat node;
     longitude := node_lon node;
     distance_m := round_ndigits P d 2 |}.

(** Steps 2 to 4 of the specification's algorithm for one candidate: a
    candidate with a category tag, a computed distance of at most
    [radius] and a name other than the placeholder gives a point of
    interest; any other candidate gives none. *)
Definition poi_of_candidate (P : Platform) (lat lon : float) (radius : number)
    (node : Node) : option POI :=
  match node_tags node !! "amenity", candidate_distance P lat lon node with
  | Some category, Ok d =>
      if float_le d radius then
        match node_tags node !! "name" with
        | Some nm =>
            if bool_decide (nm = "Unnamed POI") then None
            else Some (poi_at P node category nm d)
        | None => None
        end
      else None
  | _, _ => None
  end.

(** A point of interest was built from a node: same coordinates, the
    node's name and category, the node's distance rounded to two
    decimals. *)
Definition built_from (P : Platform) (lat lon : float) (poi : POI) (node : Node)
  : Prop :=
  latitude poi = node_lat node
  /\ longitude poi = node_lon node
  /\ node_tags node !! "name" = Some (name poi)
  /\ node_tags node !! "amenity" = Some (type poi)
  /\ exists d, candidate_distance P lat lon node = Ok d
               /\ distance_m poi = round_ndigits P d 2.

(** What a trace says about the collaborators. *)
Definition geocode_queries (t : list event) : list string :=
  omap (fun ev => match ev with GeocodeCall q => Some q | _ => None end) t.

Definition overpass_queries (t : list event) : list string :=
  omap (fun ev => match ev with OverpassCall q => Some q | _ => None end) t.

Definition saved_maps (t : list event) : list (string * FoliumMap) :=
  omap (fun ev => match ev with SaveMap path m => Some (path, m) | _ => None end) t.

(** The circle overlays of a map, and of the maps a trace saved. *)
Definition map_circles (m : FoliumMap) : list element :=
  omap (fun el => match el with Circle _ _ _ _ _ => Some el | _ => None end)
       (children m).

Definition circles (t : list event) : list element :=
  flat_map (fun pm : string * FoliumMap => map_circles pm.2) (saved_maps t).

(** The specification's RenderRequest, and how it reaches [create_map]:
    the origin, the label and the points of interest are its arguments;
    [radius_m] has no parameter to go to. *)
Record RenderRequest := {
  origin : float * float;
  label : string;
  pois : list POI;
  radius_m : number
}.

Definition render (P : Platform) (request : RenderRequest) : IO unit :=
  create_map P (origin request).1 (origin request).2 (pois request) (label request).

(** A node with its name tag taken away. *)
Definition without_name (node : Node) : Node :=
  {| node_tags := delete "name" (node_tags node);
     node_lat := node_lat node;
     node_lon := node_lon node |}.

(** ** Scenarios

    The worlds and candidates of the specification's scenarios, around
    (52.52, 13.405), to run the model on the reference platform. *)

Module Scenario.

Definition berlin : Location :=
  {| loc_latitude := decimal 5252 2; loc_longitude := decimal 13405 3 |}.

Definition lat : float := loc_latitude berlin.
Definition lon : float := loc_longitude berlin.

Definition make_node (tags : list (string * string)) (lat lon : float) : Node :=
  {| node_tags := list_to_map tags; node_lat := lat; node_lon := lon |}.

(** About 130 m from the origin. *)
Definition cafe_x : Node :=
  make_node [("amenity", "cafe"); ("name", "Cafe X")]
    (decimal 52521 3) (decimal 13406 3).

(** About 34 m from the origin. *)
Definition kiosk : Node :=
  make_node [("amenity", "kiosk"); ("name", "Kiosk am Platz")]
    (decimal 525203 4) (decimal 134049 4).

(** About 1.1 km from the origin. *)
Definition apotheke : Node :=
  make_node [("amenity", "pharmacy"); ("name", "Apotheke am Markt")]
    (decimal 5253 2) (decimal 13405 3).

(** A candidate with no name tag. *)
Definition bench : Node :=
  make_node [("amenity", "bench")] (decimal 525201 4) (decimal 134051 4).

(** A candidate whose name tag is the placeholder itself. *)
Definition fountain : Node :=
  make_node [("amenity", "fountain"); ("name", "Unnamed POI")]
    (decimal 525202 4) (decimal 134052 4).

(** The distance of [cafe_x] from the origin on the reference platform,
    130.16195750875187 m. *)
Definition cafe_distance : float := S754_finite false 4579666744798666 (-45).

(** A world: the line typed, the geocoder's answer and the map-data
    collaborator's answer, whatever they are asked. *)
Definition world (line : string) (located : result (option Location))
    (answer : result (list Node)) : World :=
  {| stdin_line := line;
     geocode := fun _ => located;
     overpass_query := fun _ => answer |}.

(** Scenario B: the geocoder has no match. *)
Definition nonexistent_street : World :=
  world "Nonexistent Street 9999" (Ok None) (Ok []).

(** The geocoder is unreachable. *)
Definition geocoder_down : World :=
  world "Alexanderplatz 1"
    (Raise (Exn "GeocoderUnavailable" "Service not available")) (Ok []).

(** Scenario C: the address resolves and the collaborator returns no
    candidate. *)
Definition empty_neighbourhood : World :=
  world "Alexanderplatz 1" (Ok (Some berlin)) (Ok []).


(** The address resolves and the collaborator returns the given
    candidates. *)
Definition neighbourhood (nodes : list Node) : World :=
  world "Alexanderplatz 1" (Ok (Some berlin)) (Ok nodes).

(** A render request for a radius of 500 m. *)
Definition request_500 : RenderRequest :=
  {| origin := (decimal 5252 2, decimal 13405 3);
     label := "Alexanderplatz 1";
     pois := [];
     radius_m := PyInt 500 |}.

End Scenario.

(** ** Edge cases

    Candidates and worlds for the behaviour of the program at its edges:
    a distance computation that raises, a name that is empty. *)

Module Edge.

(** An origin at (-12, 0) and the candidate opposite to it on the globe,
    at (12, 180): on the reference platform, as in CPython, the haversine
    term exceeds 1 by a rounding error and [math.sqrt] raises. *)
Definition lat : float := of_Z (-12).
Definition lon : float := of_Z 0.

Definition antipode : Node :=
  Scenario.make_node [("amenity", "shelter"); ("name", "Far Side")]
    (of_Z 12) (of_Z 180).

(** About 111 m south of that origin. *)
Definition hut : Node :=
  Scenario.make_node [("amenity", "shelter"); ("name", "Hut")]
    (decimal (-12001) 3) (of_Z 0).


(** The antipode without its category tag. *)
Definition untagged_antipode : Node :=
  Scenario.make_node [("name", "Far Side")] (of_Z 12) (of_Z 180).

(** A candidate whose name tag is the empty string, about 13 m from the
    origin of the scenarios. *)
Definition nameless_sign : Node :=
  Scenario.make_node [("amenity", "post_box"); ("name", EmptyString)]
    (decimal 525201 4) (decimal 134051 4).

(** A candidate whose latitude is not a number. *)
Definition lost : Node :=
  Scenario.make_node [("amenity", "cafe"); ("name", "Nowhere")]
    nan (decimal 13405 3).

End Edge.

(** ** More vocabulary *)

(** The distance of every candidate with a category tag is computed:
    none of the distance computations the loop makes raises. *)
Definition distances_computed (P : Platform) (lat lon : float)
    (nodes : list Node) : Prop :=
  forall node, node ∈ nodes -> is_Some (node_tags node !! "amenity") ->
    exists d, candidate_distance P lat lon node = Ok d.

(** [r1 <= r2] for two radii of the same kind. *)
Definition radius_le (r1 r2 : number) : bool :=
  match r1, r2 with
  | PyInt z1, PyInt z2 => z1 <=? z2
  | PyFloat x1, PyFloat x2 => leb x1 x2
  | _, _ => false
  end.

(** The markers of a map. *)
Definition map_markers (m : FoliumMap) : list element :=
  omap (fun el => match el with Marker _ _ _ => Some el | _ => None end)
       (children m).

(** Proves [distances_computed] for an explicit list of candidates by
    running the distance computation on each. *)
Ltac each_distance_computed :=
  intros ? Hin _;
  repeat (apply elem_of_cons in Hin as [->|Hin];
          [eexists; vm_compute; reflexivity|]);
  by apply elem_of_nil in Hin.

(** * Properties *)

(** ** Binary64 arithmetic *)

Section FloatFacts.

Lemma opp_involutive (x : float) : opp (opp x) = x.
Proof. destruct x as [s|s| |s m e]; simpl; rewrite ?negb_involutive; done. Qed.

Lemma is_finite_opp (x : float) : is_finite (opp x) = is_finite x.
Proof. by destruct x. Qed.

(** Rounding does not look at the sign. *)
Lemma binary_round_aux_opp (s : bool) (m e : Z) (l : location) :
  binary_round_aux prec emax (negb s) m e l
  = opp (binary_round_aux prec emax s m e l).
Proof.
  unfold binary_round_aux.
  destruct (shr_fexp prec emax m e l) as [mrs' e'].
  destruct (shr_fexp prec emax _ e' loc_Exact) as [mrs'' e''].
  destruct (shr_m mrs''); [done | | done].
  by destruct (e'' <=? emax - prec).
Qed.

Lemma binary_round_opp (s : bool) (m : positive) (e : Z) :
  binary_round prec emax (negb s) m e = opp (binary_round prec emax s m e).
Proof.
  unfold binary_round.
  destruct (shl_align m e _) as [mz ez].
  apply binary_round_aux_opp.
Qed.

Lemma mul_comm (x y : float) : mul x y = mul y x.
Proof.
  destruct x as [sx|sx| |sx mx ex], y as [sy|sy| |sy my ey]; simpl;
    rewrite ?(xorb_comm sx sy); try done.
  by rewrite (Pos.mul_comm mx my), (Z.add_comm ex ey).
Qed.

Lemma mul_opp_l (x y : float) : mul (opp x) y = opp (mul x y).
Proof.
  destruct x as [sx|sx| |sx mx ex], y as [sy|sy| |sy my ey]; simpl;
    rewrite <- ?negb_xorb_l; try done.
  apply binary_round_aux_opp.
Qed.

Lemma mul_opp_r (x y : float) : mul x (opp y) = opp (mul x y).
Proof. by rewrite (mul_comm x), mul_opp_l, (mul_comm y). Qed.

Lemma div_opp_l (x y : float) : div (opp x) y = opp (div x y).
Proof.
  destruct x as [sx|sx| |sx mx ex], y as [sy|sy| |sy my ey]; simpl;
    rewrite <- ?negb_xorb_l; try done.
  destruct (SFdiv_core_binary prec emax (Z.pos mx) ex (Z.pos my) ey) as [[mz ez] lz].
  apply binary_round_aux_opp.
Qed.

(** The difference of a finite number with itself is +0. *)
Lemma sub_diag (x : float) : is_finite x = true -> sub x x = zero.
Proof.
  destruct x as [s|s| |s m e]; try done.
  - by destruct s.
  - intros _. unfold sub, SFsub. by rewrite Z.sub_diag.
Qed.


Lemma add_zero_zero (s : bool) : add zero (S754_zero s) = zero.
Proof. by destruct s. Qed.

Lemma mul_finite_zero (x : float) :
  is_finite x = true -> exists s, mul x zero = S754_zero s.
Proof. destruct x as [s|s| |s m e]; try done; simpl; eauto. Qed.

End FloatFacts.

(** ** Products that cannot overflow *)

Section NoOverflow.

Lemma digits2_pos_size (p : positive) : digits2_pos p = Pos.size p.
Proof. induction p; simpl; congruence. Qed.

Lemma pos_lt_pow2_digits (p : positive) : Z.pos p < 2 ^ Z.pos (digits2_pos p).
Proof.
  rewrite digits2_pos_size.
  pose proof (Pos.size_gt p) as H.
  apply Pos2Z.pos_lt_pos in H. by rewrite Pos2Z.inj_pow in H.
Qed.

Lemma Zdigits2_pos (p : positive) :
  Zdigits2 (Z.pos p) = Z.succ (Z.log2 (Z.pos p)).
Proof.
  simpl. rewrite digits2_pos_size.
  destruct p; simpl; try done; by rewrite Pos2Z.inj_succ.
Qed.

Lemma Zdigits2_le (m k : Z) : 0 <= k -> 0 <= m < 2 ^ k -> Zdigits2 m <= k.
Proof.
  intros Hk [Hm Hlt]. destruct m as [|p|p]; [done | | lia].
  rewrite Zdigits2_pos. apply Z.log2_lt_pow2 in Hlt; lia.
Qed.

(** A well-formed mantissa has at most 53 bits. *)
Lemma bounded_mantissa (m : positive) (e : Z) :
  bounded prec emax m e = true -> Z.pos m < 2 ^ 53.
Proof.
  unfold bounded, canonical_mantissa, fexp, emin, prec, emax.
  intros [Hc _]%andb_prop. apply Z.eqb_eq in Hc.
  pose proof (pos_lt_pow2_digits m) as Hm.
  assert (Z.pos (digits2_pos m) <= 53) by lia.
  eapply Z.lt_le_trans; [exact Hm|].
  apply Z.pow_le_mono_r; lia.
Qed.

Lemma shr_1_bounds (r : shr_record) :
  0 <= shr_m r -> 0 <= shr_m (shr_1 r) <= shr_m r.
Proof. destruct r as [[|[p|p|]|p] b s]; simpl; lia. Qed.

Lemma iter_pos_shr_1_bounds (p : positive) (r : shr_record) :
  0 <= shr_m r -> 0 <= shr_m (iter_pos shr_1 p r) <= shr_m r.
Proof.
  revert r. induction p as [p IH|p IH|]; intros r Hr; simpl.
  - pose proof (shr_1_bounds r Hr) as H1.
    pose proof (IH _ (proj1 H1)) as H2.
    pose proof (IH _ (proj1 H2)). lia.
  - pose proof (IH _ Hr) as H1.
    pose proof (IH _ (proj1 H1)). lia.
  - by apply shr_1_bounds.
Qed.

Lemma shr_m_of_loc (m : Z) (l : location) : shr_m (shr_record_of_loc m l) = m.
Proof. by destruct l as [|[]]. Qed.

(** Shifting to the canonical exponent keeps a non-negative mantissa
    non-negative and no larger, and the new exponent is the old one or
    the canonical one. *)
Lemma shr_fexp_bounds (m e : Z) (l : location) :
  0 <= m ->
  0 <= shr_m (shr_fexp prec emax m e l).1 <= m
  /\ ((shr_fexp prec emax m e l).2 = e
      \/ (shr_fexp prec emax m e l).2 = fexp prec emax (Zdigits2 m + e)).
Proof.
  intros Hm. unfold shr_fexp, shr.
  destruct (fexp prec emax (Zdigits2 m + e) - e) as [|p|p] eqn:Hn; simpl;
    rewrite ?shr_m_of_loc; try (split; [lia | by left]).
  split; [|right; lia].
  pose proof (iter_pos_shr_1_bounds p (shr_record_of_loc m l)) as H.
  rewrite shr_m_of_loc in H. by apply H.
Qed.

Lemma round_nearest_even_bounds (m : Z) (l : location) :
  0 <= m -> m <= round_nearest_even m l <= m + 1.
Proof.
  intros Hm. destruct l as [|[]]; simpl; try lia.
  destruct (Z.even m); lia.
Qed.

(** Rounding a non-negative mantissa below 2^106 at an exponent that is
    not positive gives a zero or a finite number. *)
Lemma binary_round_aux_finite (s : bool) (m e : Z) (l : location) :
  0 <= m < 2 ^ 106 -> e <= 0 ->
  is_finite (binary_round_aux prec emax s m e l) = true.
Proof.
  intros [Hm Hlt] He. unfold binary_round_aux.
  pose proof (shr_fexp_bounds m e l Hm) as [Hm1 He1].
  destruct (shr_fexp prec emax m e l) as [mrs' e']; simpl in Hm1, He1.
  set (m1 := round_nearest_even (shr_m mrs') (loc_of_shr_record mrs')).
  pose proof (round_nearest_even_bounds (shr_m mrs') (loc_of_shr_record mrs')
    (proj1 Hm1)) as Hr. fold m1 in Hr.
  assert (Hm1' : 0 <= m1) by lia.
  pose proof (shr_fexp_bounds m1 e' loc_Exact Hm1') as [Hm2 He2].
  destruct (shr_fexp prec emax m1 e' loc_Exact) as [mrs'' e'']; simpl in Hm2, He2.
  destruct (shr_m mrs'') as [|q|q] eqn:Hq; [done | | lia].
  assert (Hd : Zdigits2 m <= 106) by (apply Zdigits2_le; lia).
  assert (Hd1 : Zdigits2 m1 <= 107).
  { apply Zdigits2_le; [lia|]. split; [lia|].
    change (2 ^ 107) with (2 * 2 ^ 106). lia. }
  assert (He'' : e'' <= emax - prec).
  { unfold fexp, emin, prec, emax in *. lia. }
  apply Z.leb_le in He''. by rewrite He''.
Qed.

Lemma mul_finite (sx sy : bool) (mx my : positive) (ex ey : Z) :
  Z.pos mx < 2 ^ 53 -> Z.pos my < 2 ^ 53 -> ex + ey <= 0 ->
  is_finite (mul (S754_finite sx mx ex) (S754_finite sy my ey)) = true.
Proof.
  intros Hx Hy He. simpl. apply binary_round_aux_finite; [|done].
  split; [lia|]. rewrite Pos2Z.inj_mul.
  change (2 ^ 106) with (2 ^ 53 * 2 ^ 53). nia.
Qed.

(** The exponent of a well-formed number between -2^k and 2^k. *)
Lemma in_range_exponent (lo hi : Z) (ml mh : positive)
      (el eh : Z) (s : bool) (m : positive) (e : Z) :
  of_Z lo = S754_finite true ml el -> of_Z hi = S754_finite false mh eh ->
  in_range lo hi (S754_finite s m e) = true ->
  Z.pos m < 2 ^ 53 /\ e <= Z.max el eh.
Proof.
  intros Hlo Hhi. unfold in_range. rewrite Hlo, Hhi.
  intros [[Hv Hl]%andb_prop Hh]%andb_prop.
  split; [by eapply bounded_mantissa|].
  unfold leb, SFleb, SFcompare in Hl, Hh. destruct s.
  - destruct (el ?= e) eqn:Hc; try done.
    + apply Z.compare_eq in Hc. lia.
    + apply Z.compare_gt_iff in Hc. lia.
  - destruct (e ?= eh) eqn:Hc; try done.
    + apply Z.compare_eq in Hc. lia.
    + change (e < eh) in Hc. lia.
Qed.

Lemma in_range_finite (lo hi : Z) (x : float) :
  is_finite (of_Z lo) = true -> is_finite (of_Z hi) = true ->
  in_range lo hi x = true -> is_finite x = true.
Proof.
  unfold in_range. intros Flo Fhi [[_ Hl]%andb_prop Hh]%andb_prop.
  destruct x as [|s| |]; try done.
  destruct s.
  - by destruct (of_Z lo) as [|[]| |[]].
  - by destruct (of_Z hi) as [|[]| |[]].
Qed.

(** The product of two numbers of [-1, 1] is a zero or a finite number. *)
Lemma mul_unit_finite (x y : float) :
  in_range (-1) 1 x = true -> in_range (-1) 1 y = true ->
  is_finite (mul x y) = true.
Proof.
  intros Hx Hy.
  pose proof (in_range_finite (-1) 1 x eq_refl eq_refl Hx) as Fx.
  pose proof (in_range_finite (-1) 1 y eq_refl eq_refl Hy) as Fy.
  destruct x as [sx| | |sx mx ex], y as [sy| | |sy my ey]; try done.
  destruct (in_range_exponent (-1) 1 (2 ^ 52) (2 ^ 52) (-52) (-52)
    sx mx ex eq_refl eq_refl Hx) as [Hmx Hex].
  destruct (in_range_exponent (-1) 1 (2 ^ 52) (2 ^ 52) (-52) (-52)
    sy my ey eq_refl eq_refl Hy) as [Hmy Hey].
  apply mul_finite; lia.
Qed.

End NoOverflow.

(** ** Distance Calculator *)

Lemma bind_Ok {A B} (a : A) (f : A -> result B) : (Ok a ≫= f) = f a.
Proof. done. Qed.

(** Closed computations the distance proofs rely on. *)
Lemma div_zero_two : div zero (of_Z 2) = zero.
Proof. vm_compute. reflexivity. Qed.

Lemma sub_one_zero : sub (of_Z 1) zero = of_Z 1.
Proof. vm_compute. reflexivity. Qed.

Lemma sqrt_zero : sqrt zero = zero.
Proof. vm_compute. reflexivity. Qed.

Lemma sqrt_one : sqrt (of_Z 1) = of_Z 1.
Proof. vm_compute. reflexivity. Qed.

Lemma one_nonneg : is_finite (of_Z 1) = true /\ sign (of_Z 1) = false.
Proof. vm_compute. done. Qed.

Lemma scale_zero : mul (of_Z 6371000) (mul (of_Z 2) zero) = zero.
Proof. vm_compute. reflexivity. Qed.

Lemma degrees_bounds :
  of_Z (-90) = S754_finite true 6333186975989760 (-46)
  /\ of_Z 90 = S754_finite false 6333186975989760 (-46)
  /\ of_Z (-180) = S754_finite true 6333186975989760 (-45)
  /\ of_Z 180 = S754_finite false 6333186975989760 (-45).
Proof. vm_compute. done. Qed.

Lemma latitude_in_degrees_range (x : float) :
  in_range (-90) 90 x = true -> in_range (-180) 180 x = true.
Proof.
  unfold in_range. destruct degrees_bounds as (-> & -> & -> & ->).
  intros [[Hv Hl]%andb_prop Hh]%andb_prop.
  rewrite Hv. simpl.
  unfold leb, SFleb, SFcompare in *.
  destruct x as [s|s| |s m e]; try done; destruct s; try done.
  - destruct (-46 ?= e) eqn:Hc; try done.
    + apply Z.compare_eq in Hc. subst e. done.
    + apply Z.compare_gt_iff in Hc.
      assert (Hc' : (-45 ?= e) = Gt) by (apply Z.compare_gt_iff; lia).
      by rewrite Hc'.
  - destruct (e ?= -46) eqn:Hc; try done.
    + apply Z.compare_eq in Hc. subst e. done.
    + change (e < -46) in Hc.
      assert (Hc' : (e ?= -45) = Lt) by (change (e < -45); lia).
      by rewrite Hc'.
Qed.

Section DistanceLaws.
Context (P : Platform).

(** What the proofs ask of the platform.  Each holds of CPython over an
    IEEE-754 C library. *)

(** Degrees in [-180, 180] convert to a finite number of radians. *)
Hypothesis radians_finite : forall x,
  in_range (-180) 180 x = true ->
  exists r, math_radians P x = Ok r /\ is_finite r = true.

(** sin(+0) = +0 and sin(-x) = -sin(x). *)
Hypothesis sin_zero : math_sin P zero = Ok zero.
Hypothesis sin_odd : forall x, math_sin P (opp x) = opp <$> math_sin P x.

(** The cosine of a finite number is a number of [-1, 1]. *)
Hypothesis cos_range : forall x,
  is_finite x = true ->
  exists c, math_cos P x = Ok c /\ in_range (-1) 1 c = true.

(** The square root of a non-negative finite number is the correctly
    rounded one. *)
Hypothesis sqrt_exact : forall x,
  is_finite x = true -> sign x = false -> math_sqrt P x = Ok (sqrt x).

(** atan2(+0, 1) = +0. *)
Hypothesis atan2_zero : math_atan2 P zero (of_Z 1) = Ok zero.

(** (+0) ** 2 = +0 and (-x) ** 2 = x ** 2. *)
Hypothesis pow_zero : float_pow P zero 2 = Ok zero.
Hypothesis pow_even : forall x, float_pow P (opp x) 2 = float_pow P x 2.

(** C5: the haversine distance from a valid GeoPoint to itself is
    computed without an error and is exactly zero. *)
Theorem distance_coincident (lat lon : float) :
  valid_geopoint lat lon = true ->
  haversine_distance P lat lon lat lon = Ok zero.
Proof.
  intros [Hlat Hlon]%andb_prop.
  apply latitude_in_degrees_range in Hlat.
  destruct (radians_finite lat Hlat) as (lat_rad & Elat & Flat).
  destruct (radians_finite lon Hlon) as (lon_rad & Elon & Flon).
  destruct (cos_range lat_rad Flat) as (c & Ecos & Hc).
  unfold haversine_distance.
  rewrite Elat, Elon, !bind_Ok.
  rewrite (sub_diag lat_rad Flat), (sub_diag lon_rad Flon), div_zero_two.
  rewrite sin_zero, !bind_Ok, pow_zero, !bind_Ok, Ecos, !bind_Ok.
  rewrite pow_zero, !bind_Ok.
  destruct (mul_finite_zero (mul c c) (mul_unit_finite c c Hc Hc)) as [s Es].
  rewrite Es, add_zero_zero.
  rewrite (sqrt_exact zero eq_refl eq_refl), bind_Ok, sub_one_zero.
  rewrite (sqrt_exact (of_Z 1) (proj1 one_nonneg) (proj2 one_nonneg)), bind_Ok.
  rewrite sqrt_zero, sqrt_one, atan2_zero, bind_Ok.
  by rewrite scale_zero.
Qed.



End DistanceLaws.

(** ** The reference platform meets what the distance proofs ask *)

Module ReferenceFacts.
Import Reference.

Lemma ref_radians_finite (x : float) :
  in_range (-180) 180 x = true ->
  exists r, math_radians platform x = Ok r /\ is_finite r = true.
Proof.
  intros Hx. exists (mul x degToRad). split; [reflexivity|].
  pose proof (in_range_finite (-180) 180 x eq_refl eq_refl Hx) as Fx.
  destruct x as [s| | |s m e]; [reflexivity | discriminate | discriminate |].
  destruct degrees_bounds as (_ & _ & Elo & Ehi).
  destruct (in_range_exponent (-180) 180 _ _ _ _ s m e Elo Ehi Hx) as [Hm He].
  apply mul_finite; [exact Hm | reflexivity | lia].
Qed.

Lemma ref_sin_zero : math_sin platform zero = Ok zero.
Proof. reflexivity. Qed.

Lemma ref_sin_odd (x : float) :
  math_sin platform (opp x) = opp <$> math_sin platform x.
Proof.
  change (math_sin platform) with ref_sin.
  destruct x as [s|s| |s m e].
  - reflexivity.
  - reflexivity.
  - reflexivity.
  - cbn [opp SFopp]. unfold ref_sin.
    generalize (sin_series (S754_finite false m e)) as r. intros r.
    destruct s; cbn [negb fmap result_fmap].
    + now rewrite opp_involutive.
    + reflexivity.
Qed.

Lemma ref_cos_range (x : float) :
  is_finite x = true ->
  exists c, math_cos platform x = Ok c /\ in_range (-1) 1 c = true.
Proof.
  intros Fx. change (math_cos platform) with ref_cos.
  assert (Hcase : ref_cos x =
    let c := cos_series x in
    if in_range (-1) 1 c then Ok c
    else if ltb c zero then Ok (of_Z (-1)) else Ok (of_Z 1)).
  { destruct x; (reflexivity || discriminate). }
  rewrite Hcase. clear Hcase. cbv zeta.
  generalize (cos_series x) as c. intros c.
  destruct (in_range (-1) 1 c) eqn:Hr; [eauto|].
  destruct (ltb c zero); eexists; (split; [reflexivity|]); vm_compute; reflexivity.
Qed.

Lemma ref_sqrt_exact (x : float) :
  is_finite x = true -> sign x = false -> math_sqrt platform x = Ok (sqrt x).
Proof.
  change (math_sqrt platform) with ref_sqrt.
  destruct x as [s|s| |s m e]; try discriminate.
  - reflexivity.
  - cbn [sign]. intros _ ->. reflexivity.
Qed.

Lemma ref_atan2_zero : math_atan2 platform zero (of_Z 1) = Ok zero.
Proof. vm_compute. reflexivity. Qed.

Lemma ref_pow_zero : float_pow platform zero 2 = Ok zero.
Proof. vm_compute. reflexivity. Qed.

Lemma ref_pow_even (x : float) :
  float_pow platform (opp x) 2 = float_pow platform x 2.
Proof.
  change (float_pow platform) with ref_pow.
  unfold ref_pow. cbn [Pos.iter].
  now rewrite mul_opp_l, mul_opp_l, mul_opp_r, opp_involutive, is_finite_opp.
Qed.

End ReferenceFacts.

(** C5 at the coordinates of the specification's scenarios,
    (52.52, 13.405), on the reference platform. *)
Lemma distance_coincident_berlin :
  valid_geopoint (decimal 5252 2) (decimal 13405 3) = true
  /\ haversine_distance Reference.platform
       (decimal 5252 2) (decimal 13405 3) (decimal 5252 2) (decimal 13405 3)
     = Ok zero.
Proof.
  split; [vm_compute; reflexivity|].
  apply (distance_coincident Reference.platform
    ReferenceFacts.ref_radians_finite ReferenceFacts.ref_sin_zero
    ReferenceFacts.ref_cos_range ReferenceFacts.ref_sqrt_exact
    ReferenceFacts.ref_atan2_zero ReferenceFacts.ref_pow_zero).
  vm_compute; reflexivity.
Defined.


(** ** POI Query Service: the loop over the candidates *)

Section Loop.
Context (P : Platform) (lat lon : float) (radius : number).

Lemma contains_lookup (d : gmap string string) (key : string) :
  contains d key = match d !! key with Some _ => true | None => false end.
Proof.
  unfold contains. destruct (d !! key) as [v|].
  - apply bool_decide_eq_true. by exists v.
  - apply bool_decide_eq_false. by intros [v ?].
Qed.



(** A candidate without a category tag is passed over. *)
Lemma visit_no_amenity (acc : list POI) (node : Node) :
  node_tags node !! "amenity" = None ->
  visit P lat lon radius acc node = Ok acc.
Proof. intros H. unfold visit. by rewrite contains_lookup, H. Qed.

(** An error of the distance computation leaves the loop. *)
Lemma visit_distance_error (acc : list POI) (node : Node) (category : string) (e : exn) :
  node_tags node !! "amenity" = Some category ->
  candidate_distance P lat lon node = Raise e ->
  visit P lat lon radius acc node = Raise e.
Proof.
  intros H E. unfold visit. rewrite contains_lookup, H.
  unfold candidate_distance in E. by rewrite E.
Qed.

(** With a computed distance, the loop body appends what the
    specification's steps 2 to 4 keep of the candidate. *)
Lemma visit_computed (acc : list POI) (node : Node) (d : float) :
  candidate_distance P lat lon node = Ok d ->
  visit P lat lon radius acc node
  = Ok (acc ++ option_list (poi_of_candidate P lat lon radius node)).
Proof.
  intros E. unfold visit, poi_of_candidate. rewrite contains_lookup, E.
  unfold candidate_distance in E.
  destruct (node_tags node !! "amenity") as [category|] eqn:Ha;
    [|by rewrite app_nil_r].
  rewrite E, bind_Ok.
  destruct (float_le d radius); [|by rewrite app_nil_r].
  unfold get, subscript. rewrite Ha.
  destruct (node_tags node !! "name") as [nm|]; simpl.
  - destruct (decide (nm = "Unnamed POI")) as [->|Hne].
    + rewrite (bool_decide_eq_true_2 ("Unnamed POI" = "Unnamed POI")) by done.
      rewrite (bool_decide_eq_false_2 ("Unnamed POI" <> "Unnamed POI"))
        by (intros H; by apply H).
      by rewrite app_nil_r.
    + rewrite (bool_decide_eq_false_2 (nm = "Unnamed POI")) by done.
      by rewrite (bool_decide_eq_true_2 (nm <> "Unnamed POI")) by done.
  - by rewrite app_nil_r.
Qed.

Lemma for_nodes_app (l1 l2 : list Node) (acc : list POI) :
  for_nodes P lat lon radius (l1 ++ l2) acc
  = (acc' ← for_nodes P lat lon radius l1 acc;
     for_nodes P lat lon radius l2 acc').
Proof.
  revert acc. induction l1 as [|n l1 IH]; intros acc; [done|].
  simpl. destruct (visit P lat lon radius acc n) as [acc'|e]; [|done].
  rewrite !bind_Ok. apply IH.
Qed.

(** A candidate the loop body passes over can be taken out of the
    response. *)
Lemma for_nodes_skip (l1 l2 : list Node) (node : Node) (acc : list POI) :
  (forall acc', visit P lat lon radius acc' node = Ok acc') ->
  for_nodes P lat lon radius (l1 ++ node :: l2) acc
  = for_nodes P lat lon radius (l1 ++ l2) acc.
Proof.
  intros Hskip. rewrite !for_nodes_app.
  destruct (for_nodes P lat lon radius l1 acc) as [acc'|e]; [|done].
  rewrite !bind_Ok. simpl. by rewrite Hskip, bind_Ok.
Qed.

(** When every candidate with a category tag has a computed distance the
    loop is the specification's filter, in the order of the response. *)
Lemma for_nodes_computed (nodes : list Node) (acc : list POI) :
  (forall node, node ∈ nodes -> is_Some (node_tags node !! "amenity") ->
                exists d, candidate_distance P lat lon node = Ok d) ->
  for_nodes P lat lon radius nodes acc
  = Ok (acc ++ omap (poi_of_candidate P lat lon radius) nodes).
Proof.
  revert acc. induction nodes as [|n nodes IH]; intros acc Hall; simpl.
  - by rewrite app_nil_r.
  - assert (Hv : visit P lat lon radius acc n
      = Ok (acc ++ option_list (poi_of_candidate P lat lon radius n))).
    { destruct (node_tags n !! "amenity") as [category|] eqn:Ha.
      - destruct (Hall n) as [d Hd]; [left | by exists category |].
        by apply (visit_computed acc n d).
      - rewrite (visit_no_amenity acc n Ha). unfold poi_of_candidate.
        rewrite Ha. simpl. by rewrite app_nil_r. }
    rewrite Hv, bind_Ok.
    rewrite IH by (intros node Hin; apply Hall; by right).
    f_equal. rewrite <- app_assoc. f_equal.
    by destruct (poi_of_candidate P lat lon radius n).
Qed.

(** What the loop body can do to the list. *)
Lemma visit_inv (acc acc' : list POI) (node : Node) :
  visit P lat lon radius acc node = Ok acc' ->
  acc' = acc
  \/ exists poi, acc' = acc ++ [poi] /\ built_from P lat lon poi node
                 /\ name poi <> "Unnamed POI"
                 /\ exists d, candidate_distance P lat lon node = Ok d
                              /\ float_le d radius = true.
Proof.
  destruct (node_tags node !! "amenity") as [category|] eqn:Ha.
  2:{ rewrite visit_no_amenity by done. intros [= <-]. by left. }
  destruct (candidate_distance P lat lon node) as [d|e] eqn:E.
  2:{ by rewrite (visit_distance_error acc node category e). }
  rewrite (visit_computed acc node d E). unfold poi_of_candidate.
  rewrite Ha, E.
  destruct (float_le d radius) eqn:Hle.
  2:{ simpl. rewrite app_nil_r. intros [= <-]. by left. }
  destruct (node_tags node !! "name") as [nm|] eqn:Hn.
  2:{ simpl. rewrite app_nil_r. intros [= <-]. by left. }
  case_bool_decide as Hs.
  { simpl. rewrite app_nil_r. intros [= <-]. by left. }
  simpl. intros [= <-]. right. eexists. split; [done|].
  split; [|split; [done|by exists d]].
  repeat split; simpl; try done. by exists d.
Qed.

(** The loop keeps what it has collected, and what it adds was built
    from a subsequence of the candidates, in their order. *)
Lemma for_nodes_sublist (nodes : list Node) (acc out : list POI) :
  for_nodes P lat lon radius nodes acc = Ok out ->
  exists added kept,
    out = acc ++ added /\ sublist kept nodes
    /\ Forall2 (built_from P lat lon) added kept
    /\ Forall (fun poi => name poi <> "Unnamed POI") added.
Proof.
  revert acc. induction nodes as [|n nodes IH]; intros acc; simpl.
  - intros [= <-]. exists [], []. rewrite app_nil_r. repeat split; constructor.
  - destruct (visit P lat lon radius acc n) as [acc'|e] eqn:Hv; [|done].
    rewrite bind_Ok. intros Hout.
    destruct (IH acc' Hout) as (added & kept & -> & Hsub & Hall & Hnm).
    destruct (visit_inv acc acc' n Hv) as [->|(poi & -> & Hb & Hne & _)].
    + exists added, kept. repeat split; try done. by apply sublist_cons.
    + exists (poi :: added), (n :: kept). rewrite <- app_assoc.
      repeat split; try done.
      * by apply sublist_skip.
      * by constructor.
      * by constructor.
Qed.


End Loop.

(** ** POI Query Service: [find_points_of_interest] *)

Section Service.
Context (P : Platform).

(** The service when the collaborator answers: the loop's list, or the
    empty list and a report if the loop raised. *)
Lemma find_points_of_interest_answer (W : World) (lat lon : float)
  (radius : number) (nodes : list Node) :
  overpass_query W (overpass_ql P radius lat lon) = Ok nodes ->
  find_points_of_interest P W lat lon radius
  = match for_nodes P lat lon radius nodes [] with
  | Ok found => Run [OverpassCall (overpass_ql P radius lat lon)] (Ok found)
  | Raise e =>
      Run [OverpassCall (overpass_ql P radius lat lon);
           Print ("Error querying Overpass API: " +:+ exn_str e)] (Ok [])
  end.
Proof.
  intros H. unfold find_points_of_interest, try_except, overpass_dot_query.
  unfold mbind, io_bind. cbn [outcome trace]. rewrite H.
  cbn [outcome trace lift].
  by destruct (for_nodes P lat lon radius nodes []).
Qed.

(** The service when the collaborator raises. *)
Lemma find_points_of_interest_error (W : World) (lat lon : float)
  (radius : number) (e : exn) :
  overpass_query W (overpass_ql P radius lat lon) = Raise e ->
  find_points_of_interest P W lat lon radius
  = Run [OverpassCall (overpass_ql P radius lat lon);
       Print ("Error querying Overpass API: " +:+ exn_str e)] (Ok []).
Proof.
  intros H. unfold find_points_of_interest, try_except, overpass_dot_query.
  unfold mbind, io_bind. cbn [outcome trace]. by rewrite H.
Qed.

(** The service returns the same list for two responses on which the
    loop does. *)
Lemma find_points_of_interest_ext (W W' : World) (lat lon : float)
  (radius : number) (nodes nodes' : list Node) :
  overpass_query W (overpass_ql P radius lat lon) = Ok nodes ->
  overpass_query W' (overpass_ql P radius lat lon) = Ok nodes' ->
  for_nodes P lat lon radius nodes [] = for_nodes P lat lon radius nodes' [] ->
  outcome (find_points_of_interest P W lat lon radius)
  = outcome (find_points_of_interest P W' lat lon radius).
Proof.
  intros H H' E.
  rewrite (find_points_of_interest_answer W lat lon radius nodes H).
  rewrite (find_points_of_interest_answer W' lat lon radius nodes' H').
  rewrite E. by destruct (for_nodes P lat lon radius nodes' []).
Qed.



Lemma poi_of_nameless_candidate (lat lon : float) (radius : number) (node : Node) :
  node_tags node !! "name" = None ->
  poi_of_candidate P lat lon radius node = None.
Proof.
  intros Hn. unfold poi_of_candidate. rewrite Hn.
  destruct (node_tags node !! "amenity"); [|done].
  destruct (candidate_distance P lat lon node) as [d|]; [|done].
  by destruct (float_le d radius).
Qed.

Lemma poi_of_placeholder_candidate (lat lon : float) (radius : number) (node : Node) :
  node_tags node !! "name" = Some "Unnamed POI" ->
  poi_of_candidate P lat lon radius node = None.
Proof.
  intros Hn. unfold poi_of_candidate. rewrite Hn.
  destruct (node_tags node !! "amenity"); [|done].
  destruct (candidate_distance P lat lon node) as [d|]; [|done].
  destruct (float_le d radius); [|done].
  by rewrite bool_decide_eq_true_2.
Qed.

(** A candidate with a computed distance of which the specification
    keeps nothing is passed over by the loop body. *)
Lemma visit_dropped (lat lon : float) (radius : number) (node : Node) (d : float) :
  candidate_distance P lat lon node = Ok d ->
  poi_of_candidate P lat lon radius node = None ->
  forall acc, visit P lat lon radius acc node = Ok acc.
Proof.
  intros Hd Hnone acc.
  rewrite (visit_computed P lat lon radius acc node d Hd), Hnone.
  simpl. by rewrite app_nil_r.
Qed.


End Service.

Section ServiceOrder.
Context (P : Platform).

(** The service always returns a list: no exception leaves it. *)
Lemma find_points_of_interest_returns (W : World) (lat lon : float) (radius : number) :
  exists found, outcome (find_points_of_interest P W lat lon radius) = Ok found.
Proof.
  destruct (overpass_query W (overpass_ql P radius lat lon)) as [nodes|e] eqn:H.
  - rewrite (find_points_of_interest_answer P W lat lon radius nodes H).
    destruct (for_nodes P lat lon radius nodes []); eauto.
  - rewrite (find_points_of_interest_error P W lat lon radius e H). eauto.
Qed.

(** C8: the output keeps the order of the response.  Its entries were
    built, one for one and in the same order, from a subsequence of the
    candidates the collaborator returned. *)
Theorem order_preserved (W : World) (lat lon : float) (radius : number)
    (nodes : list Node) :
  overpass_query W (overpass_ql P radius lat lon) = Ok nodes ->
  exists out kept,
    outcome (find_points_of_interest P W lat lon radius) = Ok out
    /\ sublist kept nodes
    /\ Forall2 (built_from P lat lon) out kept.
Proof.
  intros HW. rewrite (find_points_of_interest_answer P W lat lon radius nodes HW).
  destruct (for_nodes P lat lon radius nodes []) as [out|e] eqn:Hloop.
  - destruct (for_nodes_sublist P lat lon radius nodes [] out Hloop)
      as (added & kept & -> & Hsub & Hall & _).
    exists added, kept. by repeat split.
  - exists [], []. repeat split; [apply sublist_nil_l | constructor].
Qed.

(** C10: a candidate named "Unnamed POI" is left out like a candidate
    with no name.  With such a candidate within the radius, the output
    is the one of the response without the candidate, and the one of the
    response in which the candidate has lost its name tag; no entry of
    the output bears that name. *)
Theorem placeholder_name_excluded (W W' W'' : World) (lat lon : float)
    (radius : number) (l1 l2 : list Node) (node : Node) (d : float) :
  node_tags node !! "name" = Some "Unnamed POI" ->
  candidate_distance P lat lon node = Ok d -> float_le d radius = true ->
  overpass_query W (overpass_ql P radius lat lon) = Ok (l1 ++ node :: l2) ->
  overpass_query W' (overpass_ql P radius lat lon) = Ok (l1 ++ l2) ->
  overpass_query W'' (overpass_ql P radius lat lon)
    = Ok (l1 ++ without_name node :: l2) ->
  outcome (find_points_of_interest P W lat lon radius)
  = outcome (find_points_of_interest P W' lat lon radius)
  /\ outcome (find_points_of_interest P W lat lon radius)
     = outcome (find_points_of_interest P W'' lat lon radius)
  /\ exists out, outcome (find_points_of_interest P W lat lon radius) = Ok out
                 /\ Forall (fun poi => name poi <> "Unnamed POI") out.
Proof.
  intros Hn Hd Hle HW HW' HW''.
  assert (E : for_nodes P lat lon radius (l1 ++ node :: l2) []
    = for_nodes P lat lon radius (l1 ++ l2) []).
  { apply for_nodes_skip, (visit_dropped P lat lon radius node d Hd).
    by apply poi_of_placeholder_candidate. }
  split; [|split].
  - by apply (find_points_of_interest_ext P W W' lat lon radius _ _ HW HW').
  - apply (find_points_of_interest_ext P W W'' lat lon radius _ _ HW HW'').
    rewrite E. symmetry.
    apply for_nodes_skip, (visit_dropped P lat lon radius (without_name node) d Hd).
    apply poi_of_nameless_candidate. simpl. apply lookup_delete_eq.
  - rewrite (find_points_of_interest_answer P W lat lon radius _ HW).
    destruct (for_nodes P lat lon radius (l1 ++ node :: l2) []) as [out|e] eqn:Hloop.
    + destruct (for_nodes_sublist P lat lon radius _ [] out Hloop)
        as (added & kept & -> & _ & _ & Hnames).
      by exists added.
    + exists []. split; [done|constructor].
Qed.

End ServiceOrder.

(** ** Coordinate Resolver *)

Lemma append_ne_self (s t : string) : t <> EmptyString -> s +:+ t <> s.
Proof.
  intros Ht. induction s as [|a s IH]; simpl; [done|].
  intros [= H]. by apply IH.
Qed.

Section Resolver.
Context (W : World).

Lemma get_coordinates_found (address : string) (l : Location) :
  geocode W (address +:+ ", Berlin, Germany") = Ok (Some l) ->
  get_coordinates W address
  = Run [GeocodeCall (address +:+ ", Berlin, Germany")]
  (Ok (Some (loc_latitude l), Some (loc_longitude l))).
Proof.
  intros H. unfold get_coordinates, try_except, geolocator_geocode.
  unfold mbind, io_bind. cbn [outcome trace]. by rewrite H.
Qed.

Lemma get_coordinates_no_match (address : string) :
  geocode W (address +:+ ", Berlin, Germany") = Ok None ->
  get_coordinates W address
  = Run [GeocodeCall (address +:+ ", Berlin, Germany");
   Print "Error geocoding address: Address not found."]
  (Ok (None, None)).
Proof.
  intros H. unfold get_coordinates, try_except, geolocator_geocode.
  unfold mbind, io_bind. cbn [outcome trace]. by rewrite H.
Qed.

Lemma get_coordinates_error (address : string) (e : exn) :
  geocode W (address +:+ ", Berlin, Germany") = Raise e ->
  get_coordinates W address
  = Run [GeocodeCall (address +:+ ", Berlin, Germany");
   Print ("Error geocoding address: " +:+ exn_str e)]
  (Ok (None, None)).
Proof.
  intros H. unfold get_coordinates, try_except, geolocator_geocode.
  unfold mbind, io_bind. cbn [outcome trace]. by rewrite H.
Qed.

(** C7: whatever the address and whatever the geocoder answers, the
    resolver calls the geocoder once, with the address followed by
    ", Berlin, Germany", which is never the bare address. *)
Theorem geocoder_query (address : string) :
  geocode_queries (trace (get_coordinates W address))
  = [address +:+ ", Berlin, Germany"]
  /\ address +:+ ", Berlin, Germany" <> address.
Proof.
  split; [|by apply append_ne_self].
  destruct (geocode W (address +:+ ", Berlin, Germany")) as [[l|]|e] eqn:H.
  - by rewrite (get_coordinates_found address l H).
  - by rewrite (get_coordinates_no_match address H).
  - by rewrite (get_coordinates_error address e H).
Qed.

End Resolver.

(** ** Presentation Builder *)

Section Presentation.
Context (P : Platform).

Lemma map_circles_add_to_marker (m : FoliumMap) (location : float * float)
  (popup : string) (icon : Icon) :
  map_circles (add_to (Marker location popup icon) m) = map_circles m.
Proof.
  unfold map_circles, add_to. cbn [children].
  rewrite omap_app. simpl. by rewrite app_nil_r.
Qed.

Lemma map_circles_poi_markers (found : list POI) (m : FoliumMap) :
  map_circles (foldl (fun m poi => add_to (poi_marker P poi) m) m found)
  = map_circles m.
Proof.
  revert m. induction found as [|poi found IH]; intros m; simpl; [done|].
  rewrite IH. apply map_circles_add_to_marker.
Qed.

Lemma map_circles_add_to_circle (m : FoliumMap) (location : float * float)
  (radius : number) (color : string) (fill : bool) (fill_opacity : float) :
  map_circles (add_to (Circle location radius color fill fill_opacity) m)
  = map_circles m ++ [Circle location radius color fill fill_opacity].
Proof. unfold map_circles, add_to. cbn [children]. by rewrite omap_app. Qed.

(** The builder saves one map and reports it; the map has one circle,
    at the origin, of radius 250. *)
Lemma create_map_trace (lat lon : float) (found : list POI) (address : string) :
  exists m,
  create_map P lat lon found address
  = Run [SaveMap "poi_map.html" m;
       Print "Map saved as 'poi_map.html'. Open it in a web browser to view."]
      (Ok tt)
  /\ map_circles m = [Circle (lat, lon) (PyInt 250) "green" true (decimal 1 1)].
Proof.
  eexists. split; [reflexivity|].
  rewrite map_circles_add_to_circle, map_circles_poi_markers.
  by rewrite map_circles_add_to_marker.
Qed.

Lemma create_map_circles (lat lon : float) (found : list POI) (address : string) :
  circles (trace (create_map P lat lon found address))
  = [Circle (lat, lon) (PyInt 250) "green" true (decimal 1 1)].
Proof.
  destruct (create_map_trace lat lon found address) as (m & -> & Hm).
  unfold circles. simpl. by rewrite Hm.
Qed.

End Presentation.

(** ** Orchestrator *)

Section Orchestrator.
Context (P : Platform) (W : World).

Lemma io_bind_eq {A B} (m : IO A) (f : A -> IO B) (t t' : list event) (a : A)
  (r : result B) :
  m = Run t (Ok a) -> f a = Run t' r -> (m ≫= f) = Run (t ++ t') r.
Proof. intros -> H. unfold mbind, io_bind. cbn [outcome trace]. by rewrite H. Qed.

Lemma io_returned {A} (m : IO A) (a : A) :
  outcome m = Ok a -> m = Run (trace m) (Ok a).
Proof. destruct m as [t r]. simpl. by intros ->. Qed.

Lemma for_each_print (lines : list POI) :
  for_each lines (fun poi => print (poi_line P poi))
  = Run ((fun poi => Print (poi_line P poi)) <$> lines) (Ok tt).
Proof.
  induction lines as [|poi lines IH]; [done|].
  simpl. rewrite IH. reflexivity.
Qed.

(** A run in which the resolver gives no coordinates stops after the
    resolver's trace and one message. *)
Lemma main_unresolved (t : list event) :
  get_coordinates W (stdin_line W) = Run t (Ok (None, None)) ->
  main P W
  = Run (Input "Enter an address in Berlin: " :: t
         ++ [Print "Could not find coordinates for the address."])
      (Ok tt).
Proof.
  intros H. etrans.
  { unfold main. eapply io_bind_eq; [reflexivity|].
    eapply io_bind_eq; [exact H|]. reflexivity. }
  reflexivity.
Qed.

(** A run in which the resolver gives coordinates and the service no
    point of interest stops after the service's trace and one message. *)
Lemma main_no_results (t : list event) (lat lon : float) :
  get_coordinates W (stdin_line W) = Run t (Ok (Some lat, Some lon)) ->
  outcome (find_points_of_interest P W lat lon (PyInt 250)) = Ok [] ->
  main P W
  = Run (Input "Enter an address in Berlin: " :: t
         ++ Print ("Coordinates for " +:+ stdin_line W +:+ ": (" +:+
                   float_str P lat +:+ ", " +:+ float_str P lon +:+ ")")
         :: trace (find_points_of_interest P W lat lon (PyInt 250))
         ++ [Print "No named points of interest found within 250 meters."])
      (Ok tt).
Proof.
  intros H HF. etrans.
  { unfold main. eapply io_bind_eq; [reflexivity|].
    eapply io_bind_eq; [exact H|]. cbv beta iota.
    eapply io_bind_eq; [reflexivity|].
    eapply io_bind_eq; [exact (io_returned _ _ HF)|]. reflexivity. }
  reflexivity.
Qed.

(** A run in which the service gives points of interest lists them and
    builds the map. *)
Lemma main_results (t : list event) (lat lon : float) (poi : POI) (found : list POI) :
  get_coordinates W (stdin_line W) = Run t (Ok (Some lat, Some lon)) ->
  outcome (find_points_of_interest P W lat lon (PyInt 250)) = Ok (poi :: found) ->
  main P W
  = Run (Input "Enter an address in Berlin: " :: t
         ++ Print ("Coordinates for " +:+ stdin_line W +:+ ": (" +:+
                   float_str P lat +:+ ", " +:+ float_str P lon +:+ ")")
         :: trace (find_points_of_interest P W lat lon (PyInt 250))
         ++ Print (newline +:+ "Found " +:+ pretty (length (poi :: found)) +:+
                   " named points of interest within 250 meters:")
         :: ((fun poi => Print (poi_line P poi)) <$> poi :: found)
         ++ trace (create_map P lat lon (poi :: found) (stdin_line W)))
      (Ok tt).
Proof.
  intros H HF.
  destruct (create_map_trace P lat lon (poi :: found) (stdin_line W))
    as (m & Hmap & _).
  etrans.
  { unfold main. eapply io_bind_eq; [reflexivity|].
    eapply io_bind_eq; [exact H|]. cbv beta iota.
    eapply io_bind_eq; [reflexivity|].
    eapply io_bind_eq; [exact (io_returned _ _ HF)|]. cbv beta iota.
    eapply io_bind_eq; [reflexivity|].
    eapply io_bind_eq; [apply for_each_print|]. exact Hmap. }
  rewrite Hmap. reflexivity.
Qed.

End Orchestrator.

(** ** The runs of [main] *)

Section Runs.
Context (P : Platform) (W : World).

Lemma find_points_of_interest_trace (lat lon : float) (radius : number) :
  trace (find_points_of_interest P W lat lon radius)
  = [OverpassCall (overpass_ql P radius lat lon)]
  \/ exists e,
    trace (find_points_of_interest P W lat lon radius)
    = [OverpassCall (overpass_ql P radius lat lon);
       Print ("Error querying Overpass API: " +:+ exn_str e)].
Proof.
  destruct (overpass_query W (overpass_ql P radius lat lon)) as [nodes|e] eqn:H.
  - rewrite (find_points_of_interest_answer P W lat lon radius nodes H).
    destruct (for_nodes P lat lon radius nodes []) as [found|e]; [by left|].
    right. by exists e.
  - rewrite (find_points_of_interest_error P W lat lon radius e H).
    right. by exists e.
Qed.

Lemma saved_maps_app (t t' : list event) :
  saved_maps (t ++ t') = saved_maps t ++ saved_maps t'.
Proof. apply omap_app. Qed.

Lemma overpass_queries_app (t t' : list event) :
  overpass_queries (t ++ t') = overpass_queries t ++ overpass_queries t'.
Proof. apply omap_app. Qed.

Lemma saved_maps_prints {A} (f : A -> string) (l : list A) :
  saved_maps ((fun a => Print (f a)) <$> l) = [].
Proof. by induction l. Qed.

Lemma overpass_queries_prints {A} (f : A -> string) (l : list A) :
  overpass_queries ((fun a => Print (f a)) <$> l) = [].
Proof. by induction l. Qed.

Lemma saved_maps_find (lat lon : float) (radius : number) :
  saved_maps (trace (find_points_of_interest P W lat lon radius)) = [].
Proof.
  by destruct (find_points_of_interest_trace lat lon radius) as [->|[e ->]].
Qed.

Lemma overpass_queries_find (lat lon : float) (radius : number) :
  overpass_queries (trace (find_points_of_interest P W lat lon radius))
  = [overpass_ql P radius lat lon].
Proof.
  by destruct (find_points_of_interest_trace lat lon radius) as [->|[e ->]].
Qed.

(** A run in which the geocoder fails saves no map. *)
Lemma main_unresolved_saved_maps :
  geocode W (stdin_line W +:+ ", Berlin, Germany") = Ok None
  \/ (exists e, geocode W (stdin_line W +:+ ", Berlin, Germany") = Raise e) ->
  saved_maps (trace (main P W)) = [].
Proof.
  intros [H|[e H]].
  - by rewrite (main_unresolved P W _ (get_coordinates_no_match W _ H)).
  - by rewrite (main_unresolved P W _ (get_coordinates_error W _ e H)).
Qed.

(** A run in which the service gives no point of interest saves no map. *)
Lemma main_no_results_saved_maps (l : Location) :
  geocode W (stdin_line W +:+ ", Berlin, Germany") = Ok (Some l) ->
  outcome (find_points_of_interest P W (loc_latitude l) (loc_longitude l)
             (PyInt 250)) = Ok [] ->
  saved_maps (trace (main P W)) = [].
Proof.
  intros H HF.
  rewrite (main_no_results P W _ _ _ (get_coordinates_found W _ l H) HF).
  cbn [trace].
  change (saved_maps (trace (find_points_of_interest P W (loc_latitude l)
    (loc_longitude l) (PyInt 250))
    ++ [Print "No named points of interest found within 250 meters."])
    = []).
  by rewrite saved_maps_app, saved_maps_find.
Qed.

(** C2: when the geocoder finds no match or raises, the run stops after
    the resolver: it prompts, calls the geocoder, reports the failure and
    says that no coordinates were found.  The map-data collaborator is
    never queried and no map is saved. *)
Theorem geocoding_failure_aborts :
  geocode W (stdin_line W +:+ ", Berlin, Germany") = Ok None
  \/ (exists e, geocode W (stdin_line W +:+ ", Berlin, Germany") = Raise e) ->
  (exists report,
   main P W
   = Run [Input "Enter an address in Berlin: ";
          GeocodeCall (stdin_line W +:+ ", Berlin, Germany");
          Print ("Error geocoding address: " +:+ report);
          Print "Could not find coordinates for the address."]
         (Ok tt))
  /\ overpass_queries (trace (main P W)) = []
  /\ saved_maps (trace (main P W)) = []
  /\ circles (trace (main P W)) = [].
Proof.
  intros [H|[e H]].
  - rewrite (main_unresolved P W _ (get_coordinates_no_match W _ H)).
    split; [by exists "Address not found."|done].
  - rewrite (main_unresolved P W _ (get_coordinates_error W _ e H)).
    split; [by exists (exn_str e)|done].
Qed.

(** C4: when the geocoder finds the address and no point of interest
    passes the filter, the run ends with the message that none was
    found: no map is saved, no circle is drawn, and the run ends
    normally. *)
Theorem no_results_aborts (l : Location) :
  geocode W (stdin_line W +:+ ", Berlin, Germany") = Ok (Some l) ->
  outcome (find_points_of_interest P W (loc_latitude l) (loc_longitude l)
           (PyInt 250)) = Ok [] ->
  saved_maps (trace (main P W)) = []
  /\ circles (trace (main P W)) = []
  /\ last (trace (main P W))
   = Some (Print "No named points of interest found within 250 meters.")
  /\ outcome (main P W) = Ok tt.
Proof.
  intros H HF.
  pose proof (main_no_results_saved_maps l H HF) as Hs.
  split; [exact Hs|]. split; [unfold circles; by rewrite Hs|].
  rewrite (main_no_results P W _ _ _ (get_coordinates_found W _ l H) HF).
  cbn [trace outcome]. split; [|done].
  change (last ([Input "Enter an address in Berlin: ";
    GeocodeCall (stdin_line W +:+ ", Berlin, Germany");
    Print ("Coordinates for " +:+ stdin_line W +:+ ": (" +:+
    float_str P (loc_latitude l) +:+ ", " +:+
    float_str P (loc_longitude l) +:+ ")")]
    ++ trace (find_points_of_interest P W (loc_latitude l)
    (loc_longitude l) (PyInt 250))
    ++ [Print "No named points of interest found within 250 meters."])
    = Some (Print "No named points of interest found within 250 meters.")).
  by rewrite !app_assoc, last_snoc.
Qed.


End Runs.

(** ** The circle overlay *)

Section Overlay.
Context (P : Platform).

Lemma circles_app (t t' : list event) : circles (t ++ t') = circles t ++ circles t'.
Proof. unfold circles. by rewrite saved_maps_app, flat_map_app. Qed.

Lemma circles_no_map (t : list event) : saved_maps t = [] -> circles t = [].
Proof. unfold circles. by intros ->. Qed.

(** C9, as the code has it: the builder draws exactly one circle, at the
    origin of the request, and its radius is the constant 250; a run of
    [main] that draws a circle has queried the map-data collaborator
    once, around the circle's centre and with the same radius 250. *)
Theorem circle_radius_fixed :
  (forall request,
     circles (trace (render P request))
     = [Circle (origin request) (PyInt 250) "green" true (decimal 1 1)])
  /\ (forall W,
        circles (trace (main P W)) = []
        \/ exists lat lon,
             overpass_queries (trace (main P W))
             = [overpass_ql P (PyInt 250) lat lon]
             /\ circles (trace (main P W))
                = [Circle (lat, lon) (PyInt 250) "green" true (decimal 1 1)]).
Proof.
  split.
  - intros [[lat lon] address found r]. unfold render. cbn [origin pois label fst snd].
    apply create_map_circles.
  - intros W.
    destruct (geocode W (stdin_line W +:+ ", Berlin, Germany")) as [[l|]|e] eqn:Hg.
    + pose proof (get_coordinates_found W _ l Hg) as Hc.
      destruct (find_points_of_interest_returns P W (loc_latitude l)
        (loc_longitude l) (PyInt 250)) as [[|poi found] HF].
      * left. apply circles_no_map.
        by apply (main_no_results_saved_maps P W l).
      * right. exists (loc_latitude l), (loc_longitude l).
        rewrite (main_results P W _ _ _ poi found Hc HF). cbn [trace].
        set (F := trace (find_points_of_interest P W (loc_latitude l)
          (loc_longitude l) (PyInt 250))).
        set (lines := (fun poi => Print (poi_line P poi)) <$> poi :: found).
        set (M := trace (create_map P (loc_latitude l) (loc_longitude l)
          (poi :: found) (stdin_line W))).
        change (overpass_queries (F ++ [Print (newline +:+ "Found " +:+
          pretty (length (poi :: found)) +:+
          " named points of interest within 250 meters:")] ++ lines ++ M)
          = [overpass_ql P (PyInt 250) (loc_latitude l) (loc_longitude l)]
          /\ circles ([Input "Enter an address in Berlin: ";
          GeocodeCall (stdin_line W +:+ ", Berlin, Germany");
          Print ("Coordinates for " +:+ stdin_line W +:+ ": (" +:+
          float_str P (loc_latitude l) +:+ ", " +:+
          float_str P (loc_longitude l) +:+ ")")]
          ++ F ++ [Print (newline +:+ "Found " +:+
          pretty (length (poi :: found)) +:+
          " named points of interest within 250 meters:")]
          ++ lines ++ M)
          = [Circle (loc_latitude l, loc_longitude l) (PyInt 250)
          "green" true (decimal 1 1)]).
        rewrite !overpass_queries_app, !circles_app.
        subst F lines M.
        rewrite overpass_queries_find, overpass_queries_prints.
        rewrite (circles_no_map _ (saved_maps_find P W _ _ _)).
        rewrite (circles_no_map _ (saved_maps_prints (poi_line P) (poi :: found))).
        rewrite create_map_circles.
        destruct (create_map_trace P (loc_latitude l) (loc_longitude l)
          (poi :: found) (stdin_line W)) as (m & -> & _).
        done.
    + left. apply circles_no_map, main_unresolved_saved_maps. by left.
    + left. apply circles_no_map, main_unresolved_saved_maps. right. by exists e.
Qed.

End Overlay.

(** ** The scenarios of the specification, on the reference platform *)

Import Scenario.

(** The formula's scale: 0.00225 degrees of latitude at the equator are
    250.19 m, within one percent of 250 m. *)
Example distance_scale :
  (fun d => round_ndigits Reference.platform d 2) <$>
    haversine_distance Reference.platform zero zero (decimal 225 5) zero
  = Ok (decimal 25019 2).
Proof. vm_compute. reflexivity. Qed.

Example cafe_distance_computed :
  candidate_distance Reference.platform lat lon cafe_x = Ok cafe_distance.
Proof. vm_compute. reflexivity. Qed.

(** A distance of 250.01 exceeds a radius of 250; a distance of 250
    does not. *)
Example beyond_by_a_centimetre :
  float_gt (decimal 25001 2) (PyInt 250) = true
  /\ float_eq (of_Z 250) (PyInt 250) = true
  /\ float_gt (decimal 25001 2) (PyFloat (of_Z 250)) = true.
Proof. vm_compute. done. Qed.



(** C2 on scenario B: the geocoder has no match for "Nonexistent Street
    9999"; the run stops, nothing is queried and nothing is saved. *)
Lemma geocoding_failure_nonexistent_street :
  (geocode nonexistent_street (stdin_line nonexistent_street +:+ ", Berlin, Germany")
   = Ok None
   \/ exists e,
        geocode nonexistent_street
          (stdin_line nonexistent_street +:+ ", Berlin, Germany") = Raise e)
  /\ main Reference.platform nonexistent_street
     = Run [Input "Enter an address in Berlin: ";
            GeocodeCall "Nonexistent Street 9999, Berlin, Germany";
            Print "Error geocoding address: Address not found.";
            Print "Could not find coordinates for the address."]
           (Ok tt)
  /\ overpass_queries (trace (main Reference.platform nonexistent_street)) = []
  /\ saved_maps (trace (main Reference.platform nonexistent_street)) = [].
Proof.
  pose proof (geocoding_failure_aborts Reference.platform nonexistent_street
    (or_introl eq_refl)) as ([report Hmain] & Hq & Hs & _).
  split; [left; reflexivity|]. split; [vm_compute; reflexivity|].
  split; [exact Hq | exact Hs].
Defined.

(** The same when the geocoder raises. *)
Example geocoder_down_run :
  main Reference.platform geocoder_down
  = Run [Input "Enter an address in Berlin: ";
         GeocodeCall "Alexanderplatz 1, Berlin, Germany";
         Print "Error geocoding address: Service not available";
         Print "Could not find coordinates for the address."]
        (Ok tt).
Proof. vm_compute. reflexivity. Qed.


(** C4 on scenario C: the address resolves, the collaborator returns no
    candidate; no map is saved. *)
Lemma no_results_empty_neighbourhood :
  geocode empty_neighbourhood (stdin_line empty_neighbourhood +:+ ", Berlin, Germany")
  = Ok (Some berlin)
  /\ outcome (find_points_of_interest Reference.platform empty_neighbourhood
                (loc_latitude berlin) (loc_longitude berlin) (PyInt 250)) = Ok []
  /\ saved_maps (trace (main Reference.platform empty_neighbourhood)) = []
  /\ last (trace (main Reference.platform empty_neighbourhood))
     = Some (Print "No named points of interest found within 250 meters.").
Proof.
  assert (HF : outcome (find_points_of_interest Reference.platform
    empty_neighbourhood (loc_latitude berlin)
    (loc_longitude berlin) (PyInt 250)) = Ok [])
    by (vm_compute; reflexivity).
  pose proof (no_results_aborts Reference.platform empty_neighbourhood berlin
    eq_refl HF) as (Hs & _ & Hlast & _).
  split; [reflexivity|]. split; [exact HF|]. split; [exact Hs | exact Hlast].
Defined.

(** C8 on a response that lists the cafe, 130 m away, before the kiosk,
    34 m away: the output lists them in that order. *)
Lemma order_preserved_cafe_then_kiosk :
  overpass_query (neighbourhood [cafe_x; bench; kiosk])
    (overpass_ql Reference.platform (PyInt 250) lat lon)
  = Ok [cafe_x; bench; kiosk]
  /\ exists out kept,
       outcome (find_points_of_interest Reference.platform
                  (neighbourhood [cafe_x; bench; kiosk]) lat lon (PyInt 250))
       = Ok out
       /\ sublist kept [cafe_x; bench; kiosk]
       /\ Forall2 (built_from Reference.platform lat lon) out kept.
Proof.
  split; [reflexivity|].
  apply (order_preserved Reference.platform (neighbourhood [cafe_x; bench; kiosk])
    lat lon (PyInt 250) [cafe_x; bench; kiosk]).
  reflexivity.
Defined.

Example order_is_not_by_distance :
  (fun out : list POI =>
     map (fun poi => (name poi, float_str Reference.platform (distance_m poi))) out)
  <$> outcome (find_points_of_interest Reference.platform
               (neighbourhood [cafe_x; bench; kiosk]) lat lon (PyInt 250))
  = Ok [("Cafe X", "130.16"); ("Kiosk am Platz", "34.04")].
Proof. vm_compute. reflexivity. Qed.

(** Scenario A: three tagged candidates, two named and within the
    radius, one without a name; the run lists the two and saves a map
    with one circle of radius 250. *)
Example scenario_a :
  (fun out : list POI => map name out)
  <$> outcome (find_points_of_interest Reference.platform
                 (neighbourhood [cafe_x; bench; kiosk]) lat lon (PyInt 250))
  = Ok ["Cafe X"; "Kiosk am Platz"]
  /\ circles (trace (main Reference.platform (neighbourhood [cafe_x; bench; kiosk])))
     = [Circle (lat, lon) (PyInt 250) "green" true (decimal 1 1)].
Proof. vm_compute. done. Qed.

(** C10 on a response with a fountain named "Unnamed POI" 26 m from the
    origin, between the cafe and the kiosk: the output is the one
    without the fountain and the one with a nameless fountain. *)
Lemma placeholder_name_fountain :
  node_tags fountain !! "name" = Some "Unnamed POI"
  /\ float_le (S754_finite false 7327484818936907 (-48)) (PyInt 250) = true
  /\ outcome (find_points_of_interest Reference.platform
                (neighbourhood [cafe_x; fountain; kiosk]) lat lon (PyInt 250))
     = outcome (find_points_of_interest Reference.platform
                  (neighbourhood [cafe_x; kiosk]) lat lon (PyInt 250))
  /\ outcome (find_points_of_interest Reference.platform
                (neighbourhood [cafe_x; fountain; kiosk]) lat lon (PyInt 250))
     = outcome (find_points_of_interest Reference.platform
                  (neighbourhood [cafe_x; without_name fountain; kiosk]) lat lon
                  (PyInt 250)).
Proof.
  assert (Hn : node_tags fountain !! "name" = Some "Unnamed POI")
    by (vm_compute; reflexivity).
  assert (Hd : candidate_distance Reference.platform lat lon fountain
    = Ok (S754_finite false 7327484818936907 (-48)))
    by (vm_compute; reflexivity).
  assert (Hle : float_le (S754_finite false 7327484818936907 (-48)) (PyInt 250) = true)
    by (vm_compute; reflexivity).
  pose proof (placeholder_name_excluded Reference.platform
    (neighbourhood [cafe_x; fountain; kiosk])
    (neighbourhood [cafe_x; kiosk])
    (neighbourhood [cafe_x; without_name fountain; kiosk])
    lat lon (PyInt 250) [cafe_x] [kiosk] fountain _
    Hn Hd Hle eq_refl eq_refl eq_refl) as (H1 & H2 & _).
  split; [exact Hn|]. split; [exact Hle|]. split; [exact H1 | exact H2].
Defined.

(** C9 as stated fails: for a request with a radius of 500 m the
    builder draws its circle with a radius of 250 m. *)
Lemma circle_radius_ignores_request :
  radius_m request_500 = PyInt 500
  /\ circles (trace (render Reference.platform request_500))
     = [Circle (origin request_500) (PyInt 250) "green" true (decimal 1 1)]
  /\ ~ (exists color fill fill_opacity,
          circles (trace (render Reference.platform request_500))
          = [Circle (origin request_500) (radius_m request_500)
               color fill fill_opacity]).
Proof.
  split; [reflexivity|]. split; [vm_compute; reflexivity|].
  intros (color & fill & fill_opacity & H).
  vm_compute in H. discriminate H.
Qed.

(** * Further properties of the program *)

(** ** The loop and its errors *)

Section ServiceEdges.
Context (P : Platform).

(** An exception of a distance computation empties the output: when the
    distance of a candidate with a category tag raises, the service
    reports the exception and returns the empty list, whatever it had
    collected from the candidates before. *)
Theorem loop_error_discards_results (W : World) (lat lon : float)
    (radius : number) (l1 l2 : list Node) (node : Node) (category : string)
    (e : exn) :
  overpass_query W (overpass_ql P radius lat lon) = Ok (l1 ++ node :: l2) ->
  distances_computed P lat lon l1 ->
  node_tags node !! "amenity" = Some category ->
  candidate_distance P lat lon node = Raise e ->
  find_points_of_interest P W lat lon radius
  = Run [OverpassCall (overpass_ql P radius lat lon);
         Print ("Error querying Overpass API: " +:+ exn_str e)]
        (Ok []).
Proof.
  intros HW Hl1 Ha He.
  rewrite (find_points_of_interest_answer P W lat lon radius _ HW).
  rewrite for_nodes_app, (for_nodes_computed P lat lon radius l1 [] Hl1), bind_Ok.
  simpl. by rewrite (visit_distance_error P lat lon radius _ node category e Ha He).
Qed.

(** The service fails soft on every exception that its [except
    Exception] clause catches, and talks to the outside world once.
    Whether the collaborator answers or raises, and whether or not a
    distance computation of the loop raises, it returns a list, issues
    exactly one query, the one built from its own radius and
    coordinates, and neither geocodes nor saves anything.  (The
    exceptions outside [Exception], which the clause lets through, and
    a failing [print] are outside the model: see [exn] and [World].) *)
Theorem service_fails_soft (W : World) (lat lon : float) (radius : number) :
  (exists found, outcome (find_points_of_interest P W lat lon radius) = Ok found)
  /\ overpass_queries (trace (find_points_of_interest P W lat lon radius))
     = [overpass_ql P radius lat lon]
  /\ geocode_queries (trace (find_points_of_interest P W lat lon radius)) = []
  /\ saved_maps (trace (find_points_of_interest P W lat lon radius)) = [].
Proof.
  split; [apply find_points_of_interest_returns|].
  by destruct (find_points_of_interest_trace P W lat lon radius) as [->|[e ->]].
Qed.

(** A candidate without a category tag is passed over before its
    distance is computed: the service behaves as if the collaborator had
    not returned it, even when that distance computation would raise. *)
Theorem untagged_candidate_skipped (W W' : World) (lat lon : float)
    (radius : number) (l1 l2 : list Node) (node : Node) :
  node_tags node !! "amenity" = None ->
  overpass_query W (overpass_ql P radius lat lon) = Ok (l1 ++ node :: l2) ->
  overpass_query W' (overpass_ql P radius lat lon) = Ok (l1 ++ l2) ->
  find_points_of_interest P W lat lon radius
  = find_points_of_interest P W' lat lon radius.
Proof.
  intros Ha HW HW'.
  rewrite (find_points_of_interest_answer P W lat lon radius _ HW).
  rewrite (find_points_of_interest_answer P W' lat lon radius _ HW').
  rewrite (for_nodes_skip P lat lon radius l1 l2 node []); [done|].
  intros acc. by apply visit_no_amenity.
Qed.

Lemma omap_all_none {A B} (f : A -> option B) (l : list A) :
  (forall x, f x = None) -> omap f l = [].
Proof.
  intros Hf. induction l as [|x l IH]; [done|].
  change (omap f (x :: l))
    with (match f x with Some y => y :: omap f l | None => omap f l end).
  by rewrite Hf.
Qed.

Lemma float_le_nan (r : number) : float_le nan r = false.
Proof. by destruct r. Qed.

Lemma float_le_nan_radius (d : float) : float_le d (PyFloat nan) = false.
Proof. by destruct d. Qed.

(** A distance that is not a number is never within the radius, and
    nothing is within a radius that is not a number: a candidate whose
    computed distance is NaN is left out, and with a NaN radius the
    output is empty when the distances are computed. *)
Theorem nan_is_never_within (W W' : World) (lat lon : float)
    (radius : number) (l1 l2 : list Node) (node : Node) :
  candidate_distance P lat lon node = Ok nan ->
  overpass_query W (overpass_ql P radius lat lon) = Ok (l1 ++ node :: l2) ->
  overpass_query W' (overpass_ql P radius lat lon) = Ok (l1 ++ l2) ->
  find_points_of_interest P W lat lon radius
  = find_points_of_interest P W' lat lon radius
  /\ (forall W'' nodes,
        overpass_query W'' (overpass_ql P (PyFloat nan) lat lon) = Ok nodes ->
        distances_computed P lat lon nodes ->
        outcome (find_points_of_interest P W'' lat lon (PyFloat nan)) = Ok []).
Proof.
  intros Hd HW HW'. split.
  - rewrite (find_points_of_interest_answer P W lat lon radius _ HW).
    rewrite (find_points_of_interest_answer P W' lat lon radius _ HW').
    rewrite (for_nodes_skip P lat lon radius l1 l2 node []); [done|].
    apply (visit_dropped P lat lon radius node nan Hd).
    unfold poi_of_candidate. rewrite Hd, float_le_nan.
    by destruct (node_tags node !! "amenity").
  - intros W'' nodes HW'' Hall.
    rewrite (find_points_of_interest_answer P W'' lat lon _ _ HW'').
    rewrite (for_nodes_computed P lat lon _ nodes [] Hall). simpl. f_equal.
    apply omap_all_none. intros n. unfold poi_of_candidate.
    destruct (node_tags n !! "amenity"); [|done].
    destruct (candidate_distance P lat lon n) as [d|]; [|done].
    by rewrite float_le_nan_radius.
Qed.

End ServiceEdges.

(** ** The filter as a whole *)

Section FilterLaws.
Context (P : Platform).

Lemma poi_of_kept_candidate (lat lon : float) (radius : number)
    (node : Node) (category nm : string) (d : float) :
  node_tags node !! "amenity" = Some category ->
  node_tags node !! "name" = Some nm -> nm <> "Unnamed POI" ->
  candidate_distance P lat lon node = Ok d -> float_le d radius = true ->
  poi_of_candidate P lat lon radius node = Some (poi_at P node category nm d).
Proof.
  intros Ha Hn Hne Hd Hle. unfold poi_of_candidate.
  rewrite Ha, Hd, Hle, Hn. by rewrite bool_decide_eq_false_2.
Qed.

(** When no distance computation raises, the output is the response
    filtered and mapped in one pass, and the filter is complete: every
    candidate with a category tag, a name tag other than "Unnamed POI"
    (the empty name included) and a distance of at most the radius has
    its entry in the output. *)
Theorem filter_is_complete (W : World) (lat lon : float) (radius : number)
    (nodes : list Node) :
  overpass_query W (overpass_ql P radius lat lon) = Ok nodes ->
  distances_computed P lat lon nodes ->
  outcome (find_points_of_interest P W lat lon radius)
  = Ok (omap (poi_of_candidate P lat lon radius) nodes)
  /\ forall node category nm d,
       node ∈ nodes ->
       node_tags node !! "amenity" = Some category ->
       node_tags node !! "name" = Some nm -> nm <> "Unnamed POI" ->
       candidate_distance P lat lon node = Ok d -> float_le d radius = true ->
       poi_at P node category nm d
       ∈ omap (poi_of_candidate P lat lon radius) nodes.
Proof.
  intros HW Hall. split.
  - rewrite (find_points_of_interest_answer P W lat lon radius nodes HW).
    by rewrite (for_nodes_computed P lat lon radius nodes [] Hall).
  - intros node category nm d Hin Ha Hn Hne Hd Hle.
    apply list_elem_of_omap. exists node. split; [done|].
    by apply poi_of_kept_candidate.
Qed.

Lemma distances_computed_app (lat lon : float) (l1 l2 : list Node) :
  distances_computed P lat lon (l1 ++ l2) ->
  distances_computed P lat lon l1 /\ distances_computed P lat lon l2.
Proof.
  intros H. split; intros node Hin; apply H, elem_of_app; [by left|by right].
Qed.

(** The service works candidate by candidate: when no distance
    computation raises, the output for two responses put end to end is
    the two outputs put end to end.  Nothing is merged: a candidate
    returned twice is listed twice. *)
Theorem responses_concatenate (W1 W2 W : World) (lat lon : float)
    (radius : number) (l1 l2 : list Node) :
  overpass_query W1 (overpass_ql P radius lat lon) = Ok l1 ->
  overpass_query W2 (overpass_ql P radius lat lon) = Ok l2 ->
  overpass_query W (overpass_ql P radius lat lon) = Ok (l1 ++ l2) ->
  distances_computed P lat lon (l1 ++ l2) ->
  exists out1 out2,
    outcome (find_points_of_interest P W1 lat lon radius) = Ok out1
    /\ outcome (find_points_of_interest P W2 lat lon radius) = Ok out2
    /\ outcome (find_points_of_interest P W lat lon radius) = Ok (out1 ++ out2).
Proof.
  intros H1 H2 H Hall.
  destruct (distances_computed_app lat lon l1 l2 Hall) as [Hall1 Hall2].
  rewrite (find_points_of_interest_answer P W1 lat lon radius l1 H1).
  rewrite (find_points_of_interest_answer P W2 lat lon radius l2 H2).
  rewrite (find_points_of_interest_answer P W lat lon radius _ H).
  rewrite !for_nodes_computed by done.
  eexists _, _. split; [done|]. split; [done|].
  simpl. by rewrite omap_app.
Qed.

End FilterLaws.

(** ** Widening the radius *)

Section Ordering.

(** The order on finite floats that [SFcompare] computes. *)
Lemma leb_finite (s1 s2 : bool) (m1 m2 : positive) (e1 e2 : Z) :
  leb (S754_finite s1 m1 e1) (S754_finite s2 m2 e2) = true
  <-> match s1, s2 with
      | true, false => True
      | false, true => False
      | false, false => e1 < e2 \/ (e1 = e2 /\ (m1 <= m2)%positive)
      | true, true => e2 < e1 \/ (e1 = e2 /\ (m2 <= m1)%positive)
      end.
Proof.
  unfold leb, SFleb, SFcompare.
  change (Pos.compare_cont Eq m1 m2) with (m1 ?= m2)%positive.
  destruct s1, s2; try done.
  - destruct (Z.compare_spec e1 e2) as [->|H|H].
    + destruct (Pos.compare_spec m1 m2) as [->|Hm|Hm]; simpl; split; try done;
        try (intros _; right; split; [done|lia]);
        intros [?|[_ ?]]; lia.
    + split; [done|]. intros [?|[? _]]; lia.
    + split; [intros _; by left|done].
  - destruct (Z.compare_spec e1 e2) as [->|H|H].
    + destruct (Pos.compare_spec m1 m2) as [->|Hm|Hm]; simpl; split; try done;
        try (intros _; right; split; [done|lia]);
        intros [?|[_ ?]]; lia.
    + split; [intros _; by left|done].
    + split; [done|]. intros [?|[? _]]; lia.
Qed.

(** [<=] on floats is transitive. *)
Lemma leb_trans (x y z : float) :
  leb x y = true -> leb y z = true -> leb x z = true.
Proof.
  destruct x as [sx|sx| |sx mx ex], y as [sy|sy| |sy my ey],
    z as [sz|sz| |sz mz ez];
    try done; try (by destruct sx); try (by destruct sy);
    try (by destruct sz); try (by destruct sx, sy);
    try (by destruct sy, sz); try (by destruct sx, sz);
    try (by destruct sx, sy, sz).
  rewrite !leb_finite. destruct sx, sy, sz; try done; lia.
Qed.

Lemma compare_int_mono (d : float) (z1 z2 : Z) :
  z1 <= z2 ->
  float_le d (PyInt z1) = true -> float_le d (PyInt z2) = true.
Proof.
  intros Hz. unfold float_le, float_compare, compare_int.
  destruct d as [s|s| |s m e]; try done.
  - destruct (Z.compare_spec 0 z1), (Z.compare_spec 0 z2); try done; lia.
  - destruct (0 <=? e).
    + destruct (Z.compare_spec (cond_Zopp s (Z.pos m * 2 ^ e)) z1),
        (Z.compare_spec (cond_Zopp s (Z.pos m * 2 ^ e)) z2); try done; lia.
    + assert (z1 * 2 ^ (- e) <= z2 * 2 ^ (- e))
        by (apply Z.mul_le_mono_nonneg_r; [apply Z.pow_nonneg|]; lia).
      destruct (Z.compare_spec (cond_Zopp s (Z.pos m)) (z1 * 2 ^ (- e))),
        (Z.compare_spec (cond_Zopp s (Z.pos m)) (z2 * 2 ^ (- e))); try done; lia.
Qed.

Lemma float_le_mono (d : float) (r1 r2 : number) :
  radius_le r1 r2 = true -> float_le d r1 = true -> float_le d r2 = true.
Proof.
  destruct r1 as [z1|x1], r2 as [z2|x2]; try done; simpl.
  - intros Hz%Z.leb_le. by apply compare_int_mono.
  - intros Hx Hd. change (leb d x2 = true). by apply (leb_trans d x1 x2).
Qed.

End Ordering.

Section WiderRadius.
Context (P : Platform) (lat lon : float) (r1 r2 : number).
Hypothesis radii : radius_le r1 r2 = true.

Lemma poi_of_candidate_mono (node : Node) (poi : POI) :
  poi_of_candidate P lat lon r1 node = Some poi ->
  poi_of_candidate P lat lon r2 node = Some poi.
Proof.
  unfold poi_of_candidate.
  destruct (node_tags node !! "amenity") as [category|]; [|done].
  destruct (candidate_distance P lat lon node) as [d|]; [|done].
  destruct (float_le d r1) eqn:Hle; [|done].
  by rewrite (float_le_mono d r1 r2 radii Hle).
Qed.

(** The two loops raise together, and otherwise the narrow one collects
    a subsequence of what the wide one collects. *)
Lemma for_nodes_mono (nodes : list Node) (acc1 acc2 : list POI) :
  sublist acc1 acc2 ->
  match for_nodes P lat lon r1 nodes acc1, for_nodes P lat lon r2 nodes acc2 with
  | Ok out1, Ok out2 => sublist out1 out2
  | Raise e1, Raise e2 => e1 = e2
  | _, _ => False
  end.
Proof.
  revert acc1 acc2. induction nodes as [|n nodes IH]; intros acc1 acc2 Hacc; [done|].
  simpl.
  destruct (node_tags n !! "amenity") as [category|] eqn:Ha.
  - destruct (candidate_distance P lat lon n) as [d|e] eqn:Hd.
    + rewrite !(visit_computed P lat lon _ _ n d Hd), !bind_Ok.
      apply IH, sublist_app; [done|].
      destruct (poi_of_candidate P lat lon r1 n) as [poi|] eqn:H1.
      * by rewrite (poi_of_candidate_mono n poi H1).
      * apply sublist_nil_l.
    + by rewrite !(visit_distance_error P lat lon _ _ n category e Ha Hd).
  - rewrite !(visit_no_amenity P lat lon _ _ n Ha), !bind_Ok. by apply IH.
Qed.

(** Widening the radius never loses a point of interest.  On the same
    response, for a radius and a larger radius of the same kind, one of
    two things happens.  Either neither call reports an error, and the
    output for the smaller radius is a subsequence of the output for
    the larger one.  Or the two calls fail soft together: a distance
    computation raises, and both calls report that same exception and
    return the empty list. *)
Theorem wider_radius_keeps_pois (W1 W2 : World) (nodes : list Node) :
  overpass_query W1 (overpass_ql P r1 lat lon) = Ok nodes ->
  overpass_query W2 (overpass_ql P r2 lat lon) = Ok nodes ->
  (exists out1 out2,
     find_points_of_interest P W1 lat lon r1
     = Run [OverpassCall (overpass_ql P r1 lat lon)] (Ok out1)
     /\ find_points_of_interest P W2 lat lon r2
        = Run [OverpassCall (overpass_ql P r2 lat lon)] (Ok out2)
     /\ sublist out1 out2)
  \/ (exists e,
        find_points_of_interest P W1 lat lon r1
        = Run [OverpassCall (overpass_ql P r1 lat lon);
               Print ("Error querying Overpass API: " +:+ exn_str e)]
              (Ok [])
        /\ find_points_of_interest P W2 lat lon r2
           = Run [OverpassCall (overpass_ql P r2 lat lon);
                  Print ("Error querying Overpass API: " +:+ exn_str e)]
                 (Ok [])).
Proof.
  intros H1 H2.
  rewrite (find_points_of_interest_answer P W1 lat lon r1 nodes H1).
  rewrite (find_points_of_interest_answer P W2 lat lon r2 nodes H2).
  pose proof (for_nodes_mono nodes [] [] (sublist_nil_l _)) as H.
  destruct (for_nodes P lat lon r1 nodes []) as [out1|e1],
    (for_nodes P lat lon r2 nodes []) as [out2|e2]; try done.
  - left. by exists out1, out2.
  - right. subst e2. by exists e1.
Qed.

End WiderRadius.

(** ** The resolver and the builder *)

Section ResolverOutcome.
Context (W : World).

(** For each answer of the geocoder, a match, no match, or an exception
    that [except Exception] catches, the resolver returns both
    coordinates or neither: the coordinates of the geocoder's match and
    nothing printed, or [(None, None)] after one line that reports why,
    be it "Address not found." or the text of the geocoder's exception.
    (The exceptions outside [Exception], which the clause lets through,
    are outside the model: see [exn].) *)
Theorem resolver_outcome (address : string) :
  (exists l,
     geocode W (address +:+ ", Berlin, Germany") = Ok (Some l)
     /\ get_coordinates W address
        = Run [GeocodeCall (address +:+ ", Berlin, Germany")]
              (Ok (Some (loc_latitude l), Some (loc_longitude l))))
  \/ (exists report,
        (geocode W (address +:+ ", Berlin, Germany") = Ok None
         /\ report = "Address not found."
         \/ exists e, geocode W (address +:+ ", Berlin, Germany") = Raise e
                      /\ report = exn_str e)
        /\ get_coordinates W address
           = Run [GeocodeCall (address +:+ ", Berlin, Germany");
                  Print ("Error geocoding address: " +:+ report)]
                 (Ok (None, None))).
Proof.
  destruct (geocode W (address +:+ ", Berlin, Germany")) as [[l|]|e] eqn:H.
  - left. exists l. split; [done|]. by apply get_coordinates_found.
  - right. exists "Address not found.". split; [by left|].
    by apply get_coordinates_no_match.
  - right. exists (exn_str e). split; [right; by exists e|].
    by apply get_coordinates_error.
Qed.

End ResolverOutcome.

Section BuilderLayout.
Context (P : Platform).

Lemma foldl_poi_markers (found : list POI) (m : FoliumMap) :
  foldl (fun m poi => add_to (poi_marker P poi) m) m found
  = {| map_location := map_location m;
       zoom_start := zoom_start m;
       children := children m ++ (poi_marker P <$> found) |}.
Proof.
  revert m. induction found as [|poi found IH]; intros m; simpl.
  - rewrite app_nil_r. by destruct m.
  - rewrite IH. unfold add_to. cbn [map_location zoom_start children].
    by rewrite <- app_assoc.
Qed.

(** The builder saves exactly one map, always under the name
    "poi_map.html", centred on the origin at zoom 17.  Its elements are,
    in this order: the red origin marker labelled with the address as it
    was given, one blue marker for each point of interest in the order
    of the list, and the circle.  Then it prints one line. *)
Theorem create_map_layout (lat lon : float) (found : list POI) (address : string) :
  create_map P lat lon found address
  = Run [SaveMap "poi_map.html"
           {| map_location := (lat, lon);
              zoom_start := 17;
              children :=
                Marker (lat, lon) ("Starting Point: " +:+ address)
                  {| icon_color := "red"; icon_name := "info-sign" |}
                :: (poi_marker P <$> found)
                ++ [Circle (lat, lon) (PyInt 250) "green" true (decimal 1 1)] |};
         Print "Map saved as 'poi_map.html'. Open it in a web browser to view."]
        (Ok tt).
Proof.
  unfold create_map. rewrite foldl_poi_markers.
  unfold add_to. cbn [map_location zoom_start children app].
  reflexivity.
Qed.

End BuilderLayout.

(** ** The shapes of a run *)

Section RunShapes.
Context (P : Platform) (W : World).

Lemma find_points_of_interest_found (lat lon : float) (radius : number)
    (poi : POI) (found : list POI) :
  outcome (find_points_of_interest P W lat lon radius) = Ok (poi :: found) ->
  trace (find_points_of_interest P W lat lon radius)
  = [OverpassCall (overpass_ql P radius lat lon)].
Proof.
  destruct (overpass_query W (overpass_ql P radius lat lon)) as [nodes|e] eqn:H.
  - rewrite (find_points_of_interest_answer P W lat lon radius nodes H).
    by destruct (for_nodes P lat lon radius nodes []).
  - by rewrite (find_points_of_interest_error P W lat lon radius e H).
Qed.

(** The runs of a [World] are those in which [input()] returns a line,
    each collaborator answers or raises an exception that [except
    Exception] catches, and printing and saving succeed.  Every such run
    of [main] has one of three shapes, and returns normally in each: no
    exception of a collaborator or of a distance computation leaves
    [main].  (1) The geocoder fails: prompt, geocoder call, two messages.
    (2) The address resolves and the service returns no point of
    interest: prompt, geocoder call, the coordinates, the service's
    trace, the message that nothing was found.  (3) The service returns
    points of interest: prompt, geocoder call, the coordinates, one
    query, the count, one line for each point of interest in order, and
    the builder's trace for the geocoded point, those points and the
    address as typed. *)
Theorem run_shapes :
  ((geocode W (stdin_line W +:+ ", Berlin, Germany") = Ok None
    \/ exists e, geocode W (stdin_line W +:+ ", Berlin, Germany") = Raise e)
   /\ exists report,
        main P W
        = Run [Input "Enter an address in Berlin: ";
               GeocodeCall (stdin_line W +:+ ", Berlin, Germany");
               Print ("Error geocoding address: " +:+ report);
               Print "Could not find coordinates for the address."]
              (Ok tt))
  \/ (exists l,
        geocode W (stdin_line W +:+ ", Berlin, Germany") = Ok (Some l)
        /\ outcome (find_points_of_interest P W (loc_latitude l)
                      (loc_longitude l) (PyInt 250)) = Ok []
        /\ main P W
           = Run ([Input "Enter an address in Berlin: ";
                   GeocodeCall (stdin_line W +:+ ", Berlin, Germany");
                   Print ("Coordinates for " +:+ stdin_line W +:+ ": (" +:+
                          float_str P (loc_latitude l) +:+ ", " +:+
                          float_str P (loc_longitude l) +:+ ")")]
                  ++ trace (find_points_of_interest P W (loc_latitude l)
                              (loc_longitude l) (PyInt 250))
                  ++ [Print "No named points of interest found within 250 meters."])
                 (Ok tt))
  \/ (exists l poi found,
        geocode W (stdin_line W +:+ ", Berlin, Germany") = Ok (Some l)
        /\ outcome (find_points_of_interest P W (loc_latitude l)
                      (loc_longitude l) (PyInt 250)) = Ok (poi :: found)
        /\ main P W
           = Run ([Input "Enter an address in Berlin: ";
                   GeocodeCall (stdin_line W +:+ ", Berlin, Germany");
                   Print ("Coordinates for " +:+ stdin_line W +:+ ": (" +:+
                          float_str P (loc_latitude l) +:+ ", " +:+
                          float_str P (loc_longitude l) +:+ ")");
                   OverpassCall (overpass_ql P (PyInt 250) (loc_latitude l)
                                   (loc_longitude l));
                   Print (newline +:+ "Found " +:+
                          pretty (length (poi :: found)) +:+
                          " named points of interest within 250 meters:")]
                  ++ ((fun poi => Print (poi_line P poi)) <$> poi :: found)
                  ++ trace (create_map P (loc_latitude l) (loc_longitude l)
                              (poi :: found) (stdin_line W)))
                 (Ok tt)).
Proof.
  destruct (geocode W (stdin_line W +:+ ", Berlin, Germany")) as [[l|]|e] eqn:Hg.
  - pose proof (get_coordinates_found W _ l Hg) as Hc.
    destruct (find_points_of_interest_returns P W (loc_latitude l)
                (loc_longitude l) (PyInt 250)) as [[|poi found] HF].
    + right. left. exists l. split; [done|]. split; [done|].
      by rewrite (main_no_results P W _ _ _ Hc HF).
    + right. right. exists l, poi, found. split; [done|]. split; [done|].
      rewrite (main_results P W _ _ _ poi found Hc HF).
      by rewrite (find_points_of_interest_found _ _ _ poi found HF).
  - left. split; [by left|]. exists "Address not found.".
    by rewrite (main_unresolved P W _ (get_coordinates_no_match W _ Hg)).
  - left. split; [right; by exists e|]. exists (exn_str e).
    by rewrite (main_unresolved P W _ (get_coordinates_error W _ e Hg)).
Qed.

End RunShapes.

Section Calls.
Context (P : Platform) (W : World).

Lemma geocode_queries_app (t t' : list event) :
  geocode_queries (t ++ t') = geocode_queries t ++ geocode_queries t'.
Proof. apply omap_app. Qed.

Lemma geocode_queries_prints {A} (f : A -> string) (l : list A) :
  geocode_queries ((fun a => Print (f a)) <$> l) = [].
Proof. by induction l. Qed.

Lemma geocode_queries_find (lat lon : float) (radius : number) :
  geocode_queries (trace (find_points_of_interest P W lat lon radius)) = [].
Proof.
  by destruct (find_points_of_interest_trace P W lat lon radius) as [->|[e ->]].
Qed.

(** In every run of a [World] (one in which [input()] returns a line,
    each collaborator answers or raises an exception that [except
    Exception] catches, and printing and saving succeed), [main] returns
    normally, calls the geocoder exactly once, with the line typed and
    the qualifier, queries the map-data collaborator only if the address
    resolved, and then once, around the geocoded point with radius 250,
    and saves at most one map. *)
Theorem each_collaborator_once :
  outcome (main P W) = Ok tt
  /\ geocode_queries (trace (main P W)) = [stdin_line W +:+ ", Berlin, Germany"]
  /\ overpass_queries (trace (main P W))
     = match geocode W (stdin_line W +:+ ", Berlin, Germany") with
       | Ok (Some l) =>
           [overpass_ql P (PyInt 250) (loc_latitude l) (loc_longitude l)]
       | _ => []
       end
  /\ (length (saved_maps (trace (main P W))) <= 1)%nat.
Proof.
  destruct (geocode W (stdin_line W +:+ ", Berlin, Germany")) as [[l|]|e] eqn:Hg.
  - pose proof (get_coordinates_found W _ l Hg) as Hc.
    destruct (find_points_of_interest_returns P W (loc_latitude l)
                (loc_longitude l) (PyInt 250)) as [[|poi found] HF].
    + rewrite (main_no_results P W _ _ _ Hc HF). cbn [trace outcome].
      split; [done|].
      pose proof (geocode_queries_find (loc_latitude l) (loc_longitude l)
                    (PyInt 250)) as G1.
      pose proof (overpass_queries_find P W (loc_latitude l) (loc_longitude l)
                    (PyInt 250)) as G2.
      pose proof (saved_maps_find P W (loc_latitude l) (loc_longitude l)
                    (PyInt 250)) as G3.
      set (F := trace (find_points_of_interest P W (loc_latitude l)
                         (loc_longitude l) (PyInt 250))) in *.
      clearbody F.
      unfold geocode_queries, overpass_queries, saved_maps in *.
      cbn [omap list_omap app]. rewrite !omap_app, G1, G2, G3.
      repeat split; simpl; lia.
    + rewrite (main_results P W _ _ _ poi found Hc HF). cbn [trace outcome].
      destruct (create_map_trace P (loc_latitude l) (loc_longitude l)
                  (poi :: found) (stdin_line W)) as (m & -> & _).
      split; [done|].
      pose proof (geocode_queries_find (loc_latitude l) (loc_longitude l)
                    (PyInt 250)) as G1.
      pose proof (overpass_queries_find P W (loc_latitude l) (loc_longitude l)
                    (PyInt 250)) as G2.
      pose proof (saved_maps_find P W (loc_latitude l) (loc_longitude l)
                    (PyInt 250)) as G3.
      pose proof (geocode_queries_prints (poi_line P) (poi :: found)) as L1.
      pose proof (overpass_queries_prints (poi_line P) (poi :: found)) as L2.
      pose proof (saved_maps_prints (poi_line P) (poi :: found)) as L3.
      set (F := trace (find_points_of_interest P W (loc_latitude l)
                         (loc_longitude l) (PyInt 250))) in *.
      set (L := (fun a => Print (poi_line P a)) <$> poi :: found) in *.
      clearbody F L.
      unfold geocode_queries, overpass_queries, saved_maps in *.
      cbn [omap list_omap app trace].
      rewrite !omap_app, G1, G2, G3. cbn [omap list_omap app].
      rewrite !omap_app, L1, L2, L3.
      repeat split; simpl; lia.
  - rewrite (main_unresolved P W _ (get_coordinates_no_match W _ Hg)).
    repeat split; simpl; lia.
  - rewrite (main_unresolved P W _ (get_coordinates_error W _ e Hg)).
    repeat split; simpl; lia.
Qed.

End Calls.

(** ** Mirror images *)

Section Mirror.
Context (P : Platform).

(** Negating both operands of a subtraction negates the difference,
    except that the difference of equal numbers is +0 either way. *)
Lemma sub_opp_opp (x y : float) :
  sub (opp y) (opp x) = opp (sub y x)
  \/ (sub y x = zero /\ sub (opp y) (opp x) = zero).
Proof.
  destruct x as [sx|sx| |sx mx ex], y as [sy|sy| |sy my ey];
    try (left; simpl; rewrite ?negb_involutive; done);
    try (destruct sx, sy; simpl; auto; done).
  unfold sub, SFsub, opp, SFopp.
  set (a := cond_Zopp sy _). set (b := cond_Zopp sx _).
  replace (cond_Zopp (negb sy) _) with (- a) by (subst a; by destruct sy).
  replace (cond_Zopp (negb sx) _) with (- b) by (subst b; by destruct sx).
  replace (- a - - b) with (- (a - b)) by lia.
  destruct (a - b) as [|p|p]; simpl.
  - by right.
  - left. apply (binary_round_opp false).
  - left. apply (binary_round_opp true).
Qed.

Hypothesis radians_odd : forall x, math_radians P (opp x) = opp <$> math_radians P x.
Hypothesis sin_odd : forall x, math_sin P (opp x) = opp <$> math_sin P x.
Hypothesis cos_even : forall x, math_cos P (opp x) = math_cos P x.
Hypothesis pow_even : forall x, float_pow P (opp x) 2 = float_pow P x 2.

Lemma sin_squared_mirror {B} (x y : float) (k : float -> result B) :
  (s ← math_sin P (div (sub (opp y) (opp x)) (of_Z 2)); q ← float_pow P s 2; k q)
  = (s ← math_sin P (div (sub y x) (of_Z 2)); q ← float_pow P s 2; k q).
Proof.
  destruct (sub_opp_opp x y) as [E | [E1 E2]]; [|by rewrite E1, E2].
  rewrite E, div_opp_l, sin_odd.
  destruct (math_sin P (div (sub y x) (of_Z 2))) as [s|e]; [|done].
  change (opp <$> Ok s) with (Ok (opp s)).
  by rewrite !bind_Ok, pow_even.
Qed.

(** The distance does not change when both points are mirrored in the
    equator (both latitudes negated) or in the prime meridian (both
    longitudes negated): the two calls return the same number or raise
    the same exception. *)
Theorem distance_mirror (lat1 lon1 lat2 lon2 : float) :
  haversine_distance P (opp lat1) lon1 (opp lat2) lon2
  = haversine_distance P lat1 lon1 lat2 lon2
  /\ haversine_distance P lat1 (opp lon1) lat2 (opp lon2)
     = haversine_distance P lat1 lon1 lat2 lon2.
Proof.
  split; unfold haversine_distance; rewrite !radians_odd.
  - destruct (math_radians P lat1) as [r1|e]; [|done].
    change (opp <$> Ok r1) with (Ok (opp r1)). rewrite !bind_Ok.
    destruct (math_radians P lon1) as [g1|e]; [|done]. rewrite !bind_Ok.
    destruct (math_radians P lat2) as [r2|e]; [|done].
    change (opp <$> Ok r2) with (Ok (opp r2)). rewrite !bind_Ok.
    destruct (math_radians P lon2) as [g2|e]; [|done]. rewrite !bind_Ok.
    rewrite (sin_squared_mirror r1 r2).
    by rewrite !cos_even.
  - destruct (math_radians P lat1) as [r1|e]; [|done]. rewrite !bind_Ok.
    destruct (math_radians P lon1) as [g1|e]; [|done].
    change (opp <$> Ok g1) with (Ok (opp g1)). rewrite !bind_Ok.
    destruct (math_radians P lat2) as [r2|e]; [|done]. rewrite !bind_Ok.
    destruct (math_radians P lon2) as [g2|e]; [|done].
    change (opp <$> Ok g2) with (Ok (opp g2)). rewrite !bind_Ok.
    destruct (math_sin P (div (sub r2 r1) (of_Z 2))) as [s|e]; [|done].
    rewrite !bind_Ok.
    destruct (float_pow P s 2) as [q|e]; [|done]. rewrite !bind_Ok.
    destruct (math_cos P r1) as [c1|e]; [|done]. rewrite !bind_Ok.
    destruct (math_cos P r2) as [c2|e]; [|done]. rewrite !bind_Ok.
    by rewrite (sin_squared_mirror g1 g2).
Qed.

End Mirror.

(** ** The edge cases, on the reference platform *)

Module ReferenceMirror.
Import Reference.

Lemma ref_radians_odd (x : float) :
  math_radians platform (opp x) = opp <$> math_radians platform x.
Proof.
  change (math_radians platform) with ref_radians. unfold ref_radians.
  change (opp <$> Ok (mul x degToRad)) with (Ok (opp (mul x degToRad))).
  by rewrite mul_opp_l.
Qed.

Lemma ref_cos_even (x : float) : math_cos platform (opp x) = math_cos platform x.
Proof.
  change (math_cos platform) with ref_cos.
  assert (E : cos_series (opp x) = cos_series x).
  { unfold cos_series. by rewrite mul_opp_l, mul_opp_r, opp_involutive. }
  destruct x as [s|s| |s m e].
  - destruct s; vm_compute; reflexivity.
  - reflexivity.
  - reflexivity.
  - change (opp (S754_finite s m e)) with (S754_finite (negb s) m e) in *.
    unfold ref_cos. by rewrite E.
Qed.

End ReferenceMirror.

(** A hut 111 m away is listed before the candidate on the far side of
    the globe, whose distance raises a domain error: the output is
    empty. *)
Lemma loop_error_antipode :
  candidate_distance Reference.platform Edge.lat Edge.lon Edge.antipode
  = Raise (ValueError "math domain error")
  /\ find_points_of_interest Reference.platform
       (neighbourhood [Edge.hut; Edge.antipode]) Edge.lat Edge.lon (PyInt 250)
     = Run [OverpassCall
              (overpass_ql Reference.platform (PyInt 250) Edge.lat Edge.lon);
            Print "Error querying Overpass API: math domain error"]
           (Ok []).
Proof.
  split; [vm_compute; reflexivity|].
  apply (loop_error_discards_results Reference.platform
           (neighbourhood [Edge.hut; Edge.antipode]) Edge.lat Edge.lon
           (PyInt 250) [Edge.hut] [] Edge.antipode "shelter"
           (ValueError "math domain error")).
  - reflexivity.
  - each_distance_computed.
  - vm_compute; reflexivity.
  - vm_compute; reflexivity.
Defined.

(** Without its category tag the same candidate is harmless. *)
Lemma untagged_antipode_skipped :
  node_tags Edge.untagged_antipode !! "amenity" = None
  /\ find_points_of_interest Reference.platform
       (neighbourhood [Edge.hut; Edge.untagged_antipode]) Edge.lat Edge.lon
       (PyInt 250)
     = find_points_of_interest Reference.platform
         (neighbourhood [Edge.hut]) Edge.lat Edge.lon (PyInt 250).
Proof.
  split; [vm_compute; reflexivity|].
  apply (untagged_candidate_skipped Reference.platform
           (neighbourhood [Edge.hut; Edge.untagged_antipode])
           (neighbourhood [Edge.hut]) Edge.lat Edge.lon (PyInt 250)
           [Edge.hut] [] Edge.untagged_antipode).
  - vm_compute; reflexivity.
  - reflexivity.
  - reflexivity.
Defined.

(** A candidate whose latitude is NaN has a NaN distance and is left
    out. *)
Lemma nan_candidate_lost :
  candidate_distance Reference.platform lat lon Edge.lost = Ok nan
  /\ find_points_of_interest Reference.platform
       (neighbourhood [cafe_x; Edge.lost; kiosk]) lat lon (PyInt 250)
     = find_points_of_interest Reference.platform
         (neighbourhood [cafe_x; kiosk]) lat lon (PyInt 250).
Proof.
  assert (Hd : candidate_distance Reference.platform lat lon Edge.lost = Ok nan)
    by (vm_compute; reflexivity).
  split; [exact Hd|].
  apply (nan_is_never_within Reference.platform
           (neighbourhood [cafe_x; Edge.lost; kiosk])
           (neighbourhood [cafe_x; kiosk]) lat lon (PyInt 250)
           [cafe_x] [kiosk] Edge.lost Hd eq_refl eq_refl).
Defined.

(** A candidate whose name is the empty string is kept. *)
Lemma filter_keeps_empty_name :
  overpass_query (neighbourhood [cafe_x; Edge.nameless_sign; apotheke])
    (overpass_ql Reference.platform (PyInt 250) lat lon)
  = Ok [cafe_x; Edge.nameless_sign; apotheke]
  /\ (fun out : list POI => map name out)
     <$> outcome (find_points_of_interest Reference.platform
                    (neighbourhood [cafe_x; Edge.nameless_sign; apotheke])
                    lat lon (PyInt 250))
     = Ok ["Cafe X"; EmptyString].
Proof.
  split; [reflexivity|].
  destruct (filter_is_complete Reference.platform
              (neighbourhood [cafe_x; Edge.nameless_sign; apotheke])
              lat lon (PyInt 250) [cafe_x; Edge.nameless_sign; apotheke] eq_refl)
    as [-> _].
  - each_distance_computed.
  - vm_compute. reflexivity.
Defined.

(** A response that returns the cafe twice lists it twice. *)
Lemma duplicate_candidates_listed_twice :
  (fun out : list POI => map name out)
  <$> outcome (find_points_of_interest Reference.platform
                 (neighbourhood ([cafe_x] ++ [cafe_x; kiosk])) lat lon (PyInt 250))
  = Ok (["Cafe X"] ++ ["Cafe X"; "Kiosk am Platz"]).
Proof.
  destruct (responses_concatenate Reference.platform
              (neighbourhood [cafe_x]) (neighbourhood [cafe_x; kiosk])
              (neighbourhood ([cafe_x] ++ [cafe_x; kiosk]))
              lat lon (PyInt 250) [cafe_x] [cafe_x; kiosk] eq_refl eq_refl eq_refl)
    as (out1 & out2 & H1 & H2 & ->).
  - each_distance_computed.
  - assert (E1 : out1 = omap (poi_of_candidate Reference.platform lat lon (PyInt 250))
                          [cafe_x])
      by (vm_compute in H1; by injection H1 as <-).
    assert (E2 : out2 = omap (poi_of_candidate Reference.platform lat lon (PyInt 250))
                          [cafe_x; kiosk])
      by (vm_compute in H2; by injection H2 as <-).
    subst out1 out2. vm_compute. reflexivity.
Defined.

(** With a radius of 100 m the kiosk is listed; with 250 m the cafe and
    the kiosk are.  Neither call reports an error. *)
Lemma wider_radius_100_250 :
  radius_le (PyInt 100) (PyInt 250) = true
  /\ exists out1 out2,
       find_points_of_interest Reference.platform
         (neighbourhood [cafe_x; kiosk]) lat lon (PyInt 100)
       = Run [OverpassCall (overpass_ql Reference.platform (PyInt 100) lat lon)]
             (Ok out1)
       /\ find_points_of_interest Reference.platform
            (neighbourhood [cafe_x; kiosk]) lat lon (PyInt 250)
          = Run [OverpassCall (overpass_ql Reference.platform (PyInt 250) lat lon)]
                (Ok out2)
       /\ sublist out1 out2.
Proof.
  split; [reflexivity|].
  destruct (wider_radius_keeps_pois Reference.platform lat lon (PyInt 100)
              (PyInt 250) eq_refl (neighbourhood [cafe_x; kiosk])
              (neighbourhood [cafe_x; kiosk]) [cafe_x; kiosk] eq_refl eq_refl)
    as [H|(e & H & _)]; [exact H|].
  exfalso. vm_compute in H. discriminate H.
Defined.

(** The hut and the candidate on the far side of the globe: with a
    radius of 100 m and with one of 250 m, the service reports the same
    domain error and returns the empty list. *)
Example narrow_and_wide_fail_together :
  find_points_of_interest Reference.platform
    (neighbourhood [Edge.hut; Edge.antipode]) Edge.lat Edge.lon (PyInt 100)
  = Run [OverpassCall
           (overpass_ql Reference.platform (PyInt 100) Edge.lat Edge.lon);
         Print "Error querying Overpass API: math domain error"]
        (Ok [])
  /\ find_points_of_interest Reference.platform
       (neighbourhood [Edge.hut; Edge.antipode]) Edge.lat Edge.lon (PyInt 250)
     = Run [OverpassCall
              (overpass_ql Reference.platform (PyInt 250) Edge.lat Edge.lon);
            Print "Error querying Overpass API: math domain error"]
           (Ok []).
Proof. vm_compute. done. Qed.

Example narrow_and_wide :
  (fun out : list POI => map name out)
  <$> outcome (find_points_of_interest Reference.platform
                 (neighbourhood [cafe_x; kiosk]) lat lon (PyInt 100))
  = Ok ["Kiosk am Platz"]
  /\ (fun out : list POI => map name out)
     <$> outcome (find_points_of_interest Reference.platform
                    (neighbourhood [cafe_x; kiosk]) lat lon (PyInt 250))
     = Ok ["Cafe X"; "Kiosk am Platz"].
Proof. vm_compute. done. Qed.

(** The distance between the origin and the cafe, and between their
    mirror images. *)
Lemma distance_mirror_berlin :
  haversine_distance Reference.platform (opp lat) lon (opp (node_lat cafe_x))
    (node_lon cafe_x)
  = Ok cafe_distance
  /\ haversine_distance Reference.platform lat (opp lon) (node_lat cafe_x)
       (opp (node_lon cafe_x))
     = Ok cafe_distance.
Proof.
  destruct (distance_mirror Reference.platform
              ReferenceMirror.ref_radians_odd ReferenceFacts.ref_sin_odd
              ReferenceMirror.ref_cos_even ReferenceFacts.ref_pow_even
              lat lon (node_lat cafe_x) (node_lon cafe_x)) as [-> ->].
  split; vm_compute; reflexivity.
Defined.
